(** * geopyspark.geotrellis.rasterize: a shallow embedding

    The module under study is a binding layer: it normalises a handful of
    scalar parameters, encodes geometries (or re-tags a collection of
    features), dispatches one py4j call into the JVM and wraps the handle
    that comes back.  The embedding follows [rasterize.py] statement by
    statement.  What the module imports from elsewhere (shapely's [dumps],
    Python's [float] and [Enum], pyspark's RDD, the py4j gateway) is either
    a section variable or a small model written next to the code that uses
    it, and is marked as such. *)

From Stdlib Require Import ZArith List String Floats Bool.
From Stdlib Require Import DecimalString DecimalPos DecimalZ.
From Stdlib.Strings Require Import Byte.
Import ListNotations.

Open Scope string_scope.
Open Scope list_scope.

(** ** Python values *)

(** The exceptions that can leave the two functions.  [Py4JError] is what the
    gateway raises when the JVM side rejects or fails a call; [OtherError]
    carries the class name of anything else (shapely's own errors, for one). *)
Inductive PyExc : Type :=
| ValueError
| TypeError
| AttributeError
| Py4JError
| OtherError (cls : string).

(** The two enumerations the module calls as constructors. *)
Inductive EnumClass : Type := CellType | Partitioner.

Definition EnumClass_eqb (a b : EnumClass) : bool :=
  match a, b with
  | CellType, CellType | Partitioner, Partitioner => true
  | _, _ => false
  end.

(** A member of an [Enum] class: its class, its [name] and its [value]. *)
Record EnumMember : Type := mkMember {
  em_cls : EnumClass;
  em_name : string;
  em_value : string
}.

(** Modelled from the spec: the layer-type tag of
    geopyspark/geotrellis/constants.py, which the module only ever mentions
    through its member [SPATIAL] ("here always spatial"). *)
Inductive LayerType : Type :=
| SPATIAL
| OtherLayerType (name : string).

(** Modelled from the spec: the codec functions of
    geopyspark/vector_pipe/vector_pipe_protobufcodecs.py, by name; the
    feature/CellValue pair is the one the module imports, and the repository
    has others. *)
Inductive Codec : Type :=
| feature_cellvalue_decoder
| feature_cellvalue_encoder
| OtherCodec (name : string).

(** Serializers a pyspark collection can be tagged with.  [PickleSerializer]
    stands for the context's default serializer of generic Python values and
    [NoOpSerializer] is pyspark's, which frames nothing.  [ProtoBufSerializer]
    (geopyspark/geotrellis/protobufserializer.py) is modelled from the spec:
    it routes every record through the encoder/decoder pair it was built
    from. *)
Inductive Serializer : Type :=
| PickleSerializer
| NoOpSerializer
| ProtoBufSerializer (decoding_method encoding_method : Codec).

(** The closures that end up inside a collection's pipeline:
    [lambda geom: dumps(geom)] of [rasterize], and the [lambda x: x] that
    pyspark's [_reserialize] inserts. *)
Inductive PyFunc : Type :=
| lambda_dumps
| lambda_id.

(** The JVM entry points of [SpatialTiledRasterLayer] the module resolves. *)
Inductive RemoteFn : Type :=
| rasterizeGeometry
| rasterizeFeaturesWithZIndex.

#[local] Unset Elimination Schemes.

(** Python objects, pyspark collections among them.  [PyObj] is an object
    of any class not listed (a shapely geometry, a [Feature], a
    [RasterizerOptions], a generator ...), known by its identity only; such
    an object has none of the attributes the module reads ([map],
    [_reserialize]).  [PySeries] is an object that is no pyspark collection
    and yet has a [map] method of its own, which applies the function to
    each of its values at once and returns an object of the same kind (a
    pandas [Series], say); it has none of pyspark's private attributes.

    An [RDD] is either a collection whose data already sits on the JVM side
    (its partitions listed in order, each partition's elements in order) or a
    pipelined one: a parent, the function still to be applied to every
    element, and the attributes pyspark keeps on it. *)
Inductive PyVal : Type :=
| PyNone
| PyBool (b : bool)
| PyInt (z : Z)
| PyFloat (f : float)
| PyStr (s : string)
| PyBytes (b : list byte)
| PyList (items : list PyVal)
| PyTuple (items : list PyVal)
| PyEnum (m : EnumMember)
| PyObj (id : N)
| PyRDD (r : RDD)
| PySeries (values : list PyVal)
with RDD : Type :=
| ParallelRDD (partitions : list (list PyVal)) (_jrdd_deserializer : Serializer)
| PipelinedRDD (prev : RDD) (func : PyFunc) (preservesPartitioning : bool)
               (_jrdd_deserializer : Serializer) (_bypass_serializer : bool).

#[local] Set Elimination Schemes.

(** Induction along the chain of parents of a collection. *)
Fixpoint RDD_parent_ind (P : RDD -> Prop)
    (base : forall parts d, P (ParallelRDD parts d))
    (step : forall prev f p d b, P prev -> P (PipelinedRDD prev f p d b))
    (r : RDD) : P r :=
  match r with
  | ParallelRDD parts d => base parts d
  | PipelinedRDD prev f p d b =>
      step prev f p d b (RDD_parent_ind P base step prev)
  end.

(** Handles to JVM objects, as py4j hands them to Python: the Scala
    [SparkContext], the [JavaRDD] behind a Python collection and the Scala
    RDD inside it (each remembers the Python collection it was built from),
    and the layer a rasterizer returns. *)
Inductive JavaObj : Type :=
| JSparkContext (id : N)
| JavaRDD (py : RDD)
| JScalaRDD (py : RDD)
| JLayer (handle : N).

(** A positional argument of a py4j call: a Python value, converted by the
    gateway, or a handle, passed by reference. *)
Inductive Arg : Type :=
| Py (v : PyVal)
| Java (j : JavaObj).

(** Modelled from the spec: the tile-layer wrapper of
    geopyspark/geotrellis/layer.py, a thin result object of which only the
    construction is of concern here: the handle the JVM returned, wrapped
    with a layer-type tag. *)
Record TiledRasterLayer : Type := mkTiledRasterLayer {
  layer_type : LayerType;
  srdd : JavaObj
}.

(** ** Effects: a trace of gateway traffic, and exceptions *)

(** Everything that crosses into the JVM is recorded.  [RemoteCall] is the
    invocation of a rasterizer entry point with its positional arguments;
    the other events are the auxiliary py4j traffic the source also causes. *)
Inductive Event : Type :=
| JvmResolve (fn : RemoteFn)
| JvmSc (ctx : N)
| JvmPythonRDD (py : RDD)
| JvmRdd (py : RDD)
| RemoteCall (fn : RemoteFn) (args : list Arg).

Record Run (A : Type) : Type := mkRun {
  trace : list Event;
  outcome : PyExc + A
}.
Arguments mkRun {A} _ _.
Arguments trace {A} _.
Arguments outcome {A} _.

Definition ret {A} (a : A) : Run A := mkRun [] (inr a).
Definition raise {A} (e : PyExc) : Run A := mkRun [] (inl e).
Definition lift {A} (x : PyExc + A) : Run A := mkRun [] x.
Definition emit (ev : Event) : Run unit := mkRun [ev] (inr tt).

Definition bind {A B} (m : Run A) (k : A -> Run B) : Run B :=
  match outcome m with
  | inl e => mkRun (trace m) (inl e)
  | inr a => mkRun (trace m ++ trace (k a)) (outcome (k a))
  end.

Declare Scope run_scope.
Delimit Scope run_scope with run.
Notation "x <- m ;; k" := (bind m (fun x => k))
  (at level 61, m at next level, right associativity) : run_scope.
Notation "m ;;; k" := (bind m (fun _ => k))
  (at level 61, right associativity) : run_scope.
Open Scope run_scope.

(** Exceptions alone, for code that causes no traffic. *)
Definition ebind {A B} (x : PyExc + A) (k : A -> PyExc + B) : PyExc + B :=
  match x with
  | inl e => inl e
  | inr a => k a
  end.

Fixpoint mapM {A B} (f : A -> PyExc + B) (l : list A) : PyExc + list B :=
  match l with
  | [] => inr []
  | x :: xs =>
      ebind (f x) (fun y => ebind (mapM f xs) (fun ys => inr (y :: ys)))
  end.

Definition is_remote_call (ev : Event) : bool :=
  match ev with
  | RemoteCall _ _ => true
  | _ => false
  end.

(** The rasterizer invocations of a trace, in order. *)
Definition remote_calls (tr : list Event) : list Event :=
  filter is_remote_call tr.

(** ** Built-ins *)

(** [str(n)] for an [int]: the decimal spelling, with a leading minus sign for
    a negative number. *)
Definition str_int (z : Z) : string :=
  NilZero.string_of_int (Z.to_int z).

(** [str(b)] for a [bool]. *)
Definition str_bool (b : bool) : string :=
  if b then "True" else "False".

(** Lines 42-43 and 119-120:
<<
    if isinstance(crs, int):
        crs = str(crs)
>>
    [bool] is a subclass of [int] in Python, so a [bool] takes the branch
    too. *)
Definition normalize_crs (crs : PyVal) : PyVal :=
  match crs with
  | PyInt z => PyStr (str_int z)
  | PyBool b => PyStr (str_bool b)
  | _ => crs
  end.

(** [isinstance(v, int)] and [isinstance(v, str)]. *)
Definition isinstance_int (v : PyVal) : bool :=
  match v with
  | PyInt _ | PyBool _ => true
  | _ => false
  end.

Definition isinstance_str (v : PyVal) : bool :=
  match v with
  | PyStr _ => true
  | _ => false
  end.

(** [isinstance(geoms, (list, tuple))], line 49. *)
Definition is_list_or_tuple (v : PyVal) : bool :=
  match v with
  | PyList _ | PyTuple _ => true
  | _ => false
  end.

(** pyspark's [Serializer.__eq__]: same class and same instance [__dict__].
    A [ProtoBufSerializer] keeps its two functions in slots, out of the
    [__dict__], so that any two of them compare equal, whatever their
    codecs. *)
Definition Serializer_eqb (a b : Serializer) : bool :=
  match a, b with
  | PickleSerializer, PickleSerializer => true
  | NoOpSerializer, NoOpSerializer => true
  | ProtoBufSerializer _ _, ProtoBufSerializer _ _ => true
  | _, _ => false
  end.

(** ** pyspark's RDD, as far as the module drives it *)

Module RDD.

Definition _jrdd_deserializer (r : RDD) : Serializer :=
  match r with
  | ParallelRDD _ d => d
  | PipelinedRDD _ _ _ d _ => d
  end.

Definition _bypass_serializer (r : RDD) : bool :=
  match r with
  | ParallelRDD _ _ => false
  | PipelinedRDD _ _ _ _ b => b
  end.

(** [rdd.map(f, preservesPartitioning)] runs nothing: it returns a new
    pipelined collection over [rdd], tagged with the context's default
    serializer and with [_bypass_serializer = False]. *)
Definition map (r : RDD) (f : PyFunc) (preservesPartitioning : bool) : RDD :=
  PipelinedRDD r f preservesPartitioning PickleSerializer false.

(** Attribute assignments on a collection.  On a collection that is not
    pipelined [_bypass_serializer] is a plain attribute nothing reads. *)
Definition set_bypass_serializer (r : RDD) (b : bool) : RDD :=
  match r with
  | ParallelRDD _ _ => r
  | PipelinedRDD prev f p d _ => PipelinedRDD prev f p d b
  end.

Definition set_jrdd_deserializer (r : RDD) (d : Serializer) : RDD :=
  match r with
  | ParallelRDD parts _ => ParallelRDD parts d
  | PipelinedRDD prev f p _ b => PipelinedRDD prev f p d b
  end.

(** pyspark's
<<
  def _reserialize(self, serializer=None):
      serializer = serializer or self.ctx.serializer
      if self._jrdd_deserializer != serializer:
          self = self.map(lambda x: x, preservesPartitioning=True)
          self._jrdd_deserializer = serializer
      return self
>> *)
Definition _reserialize (r : RDD) (serializer : Serializer) : RDD :=
  if Serializer_eqb (_jrdd_deserializer r) serializer then r
  else set_jrdd_deserializer (map r lambda_id true) serializer.

(** The [_jrdd] property.  A collection that is not pipelined already has
    its JVM counterpart.  A pipelined one builds it on first access (a
    [PythonRDD] on the JVM side), and it is then that the bypass flag is
    read: [if self._bypass_serializer: self._jrdd_deserializer =
    NoOpSerializer()]. *)
Definition _jrdd (r : RDD) : Run JavaObj :=
  match r with
  | ParallelRDD _ _ => ret (JavaRDD r)
  | PipelinedRDD prev f p d b =>
      let r' := PipelinedRDD prev f p (if b then NoOpSerializer else d) b in
      emit (JvmPythonRDD r') ;;;
      ret (JavaRDD r')
  end.

(** The number of partitions: a pipelined collection has its parent's. *)
Fixpoint getNumPartitions (r : RDD) : nat :=
  match r with
  | ParallelRDD parts _ => List.length parts
  | PipelinedRDD prev _ _ _ _ => getNumPartitions prev
  end.

End RDD.

(** [jrdd.rdd()] on a [JavaRDD] handle: one more py4j round trip.  Any other
    handle has no such method, which py4j reports as [Py4JError]. *)
Definition JavaRDD_rdd (j : JavaObj) : Run JavaObj :=
  match j with
  | JavaRDD py => emit (JvmRdd py) ;;; ret (JScalaRDD py)
  | _ => raise Py4JError
  end.

(** [features._reserialize(ser)], line 128: a private method of pyspark's
    collections, which nothing else has. *)
Definition call_reserialize (v : PyVal) (ser : Serializer) : Run RDD :=
  match v with
  | PyRDD r => ret (RDD._reserialize r ser)
  | _ => raise AttributeError
  end.

(** The elements of a [list] or a [tuple]. *)
Definition items_of (v : PyVal) : list PyVal :=
  match v with
  | PyList l | PyTuple l => l
  | _ => []
  end.

(** ** A concrete environment

    One instance of everything the module imports, small enough to run: it
    is what the examples further down are evaluated against. *)

Module Sample.

(** A stand-in for shapely's encoder: the objects with identity below 256
    are point geometries, encoded as a byte-order mark, the geometry type
    and the identity; nothing else is a geometry. *)
Definition dumps (v : PyVal) : PyExc + list byte :=
  match v with
  | PyObj id =>
      match Byte.of_N id with
      | Some b => inr [x01; x01; x00; x00; x00; b]
      | None => inl (OtherError "WKBWriteError")
      end
  | _ => inl AttributeError
  end.

(** [float] on the numeric types: a [float] is returned as it is, a [bool]
    is [0.0] or [1.0], an [int] is rounded to the nearest double (and is an
    [OverflowError] beyond the range of doubles).  Strings are not parsed
    by this stand-in. *)
Definition builtin_float (v : PyVal) : PyExc + float :=
  match v with
  | PyFloat f => inr f
  | PyBool b => inr (if b then 1%float else 0%float)
  | PyInt z =>
      if (Z.abs z <? 2 ^ 1024)%Z
      then inr (SF2Prim (binary_normalize prec emax z 0 false))
      else inl (OtherError "OverflowError")
  | PyStr _ => inl ValueError
  | _ => inl TypeError
  end.

(** A test double for the JVM: every call returns the same handle. *)
Definition jvm_invoke (fn : RemoteFn) (args : list Arg) : PyExc + N :=
  inr 7%N.

(** A JVM that rejects a call whose crs argument is not a string. *)
Definition strict_jvm_invoke (fn : RemoteFn) (args : list Arg) : PyExc + N :=
  let crs_pos :=
    match fn with
    | rasterizeGeometry =>
        match args with
        | Java (JSparkContext _) :: _ => 2%nat
        | _ => 1%nat
        end
    | rasterizeFeaturesWithZIndex => 1%nat
    end in
  match nth_error args crs_pos with
  | Some (Py (PyStr _)) => inr 7%N
  | _ => inl Py4JError
  end.

(** Stand-ins for the two framings: a pickle frame is never the bare
    payload, and the feature codec accepts only [Feature] objects, here
    the objects with identity 1000 and above. *)
Definition pickle_dumps (v : PyVal) : list byte :=
  match v with
  | PyBytes b => x80 :: x43 :: b ++ [x2e]
  | _ => [x80; x2e]
  end.

Definition codec_encode (c : Codec) (v : PyVal) : PyExc + list byte :=
  match c, v with
  | feature_cellvalue_encoder, PyObj id =>
      if (1000 <=? id)%N then inr [x0a; x00] else inl AttributeError
  | _, _ => inl AttributeError
  end.

(** The members the source names as defaults. *)
Definition members (cls : EnumClass) : list (string * string) :=
  match cls with
  | CellType => [("INT8", "int8"); ("FLOAT64", "float64")]
  | Partitioner => [("HASH_PARTITIONER", "HashPartitioner")]
  end.

Definition FLOAT64 : PyVal := PyEnum (mkMember CellType "FLOAT64" "float64").
Definition INT8 : PyVal := PyEnum (mkMember CellType "INT8" "int8").
Definition HASH_PARTITIONER : PyVal :=
  PyEnum (mkMember Partitioner "HASH_PARTITIONER" "HashPartitioner").

Definition active_spark_context : PyExc + N := inr 1%N.

(** Two points, and a collection of them in two partitions. *)
Definition p1 : PyVal := PyObj 1.
Definition p2 : PyVal := PyObj 2.
Definition points : RDD := ParallelRDD [[p1]; [p2]] PickleSerializer.

(** A collection with an element shapely cannot encode. *)
Definition broken : RDD := ParallelRDD [[p1; PyNone]] PickleSerializer.

(** Features. *)
Definition features : RDD :=
  ParallelRDD [[PyObj 1000; PyObj 1001]] PickleSerializer.


End Sample.

(** ** The tile selector of the cost-distance tests *)

Module CostDistanceTest.

(** A tile key as the tests write it, [{'row': 0, 'col': 0}]: a dict from
    names to integers, listed in the order of the literal, no name bound
    twice. *)
Definition Key : Type := list (string * Z).

(** [k[name]]: the value bound to [name], or [KeyError]. *)
Fixpoint getitem (k : Key) (name : string) : PyExc + Z :=
  match k with
  | [] => inl (OtherError "KeyError")
  | (n, v) :: rest => if String.eqb n name then inr v else getitem rest name
  end.

(** Lines 41-43 and 57-59 of costdistance_test.py:
<<
    def zero_one(kv):
        k = kv[0]
        return (k['col'] == 0 and k['row'] == 1)
>>
    [and] evaluates its right operand only when the left one is true. *)
Definition zero_one {T} (kv : Key * T) : PyExc + bool :=
  let k := fst kv in
  ebind (getitem k "col") (fun col =>
    if (col =? 0)%Z
    then ebind (getitem k "row") (fun row => inr (row =? 1)%Z)
    else inr false).

(** The keys of the four tiles of [layer], lines 22-25. *)
Definition layer_keys : list Key :=
  [[("row", 0%Z); ("col", 0%Z)]; [("row", 1%Z); ("col", 0%Z)];
   [("row", 0%Z); ("col", 1%Z)]; [("row", 1%Z); ("col", 1%Z)]].

End CostDistanceTest.

(** ** The module *)

Section Rasterize.

(** What the module imports from outside the repository. *)

(** [shapely.wkb.dumps]: the well-known binary encoding of a geometry, or
    the exception shapely raises on anything it cannot encode. *)
Variable dumps : PyVal -> PyExc + list byte.

(** Python's [float(x)]. *)
Variable builtin_float : PyVal -> PyExc + float.

(** The JVM side of a rasterizer entry point: the handle of the layer it
    builds, or the failure the gateway reports. *)
Variable jvm_invoke : RemoteFn -> list Arg -> PyExc + N.

(** How the serializers frame one element on its way to the JVM: pickle
    for generic Python values, a codec function for protobuf records. *)
Variable pickle_dumps : PyVal -> list byte.
Variable codec_encode : Codec -> PyVal -> PyExc + list byte.

(** What the module imports from the rest of the repository. *)

(** Modelled from the spec: the members of [CellType] and [Partitioner]
    (geopyspark/geotrellis/constants.py), one closed lookup table per
    enumeration, as (name, value) pairs in definition order; the values are
    the strings callers may spell a member with. *)
Variable members : EnumClass -> list (string * string).

(** Modelled from the spec: the active distributed-execution context that
    [get_spark_context] (geopyspark/__init__.py) hands out, by the id of
    its JVM counterpart, or the exception raised when there is none. *)
Variable active_spark_context : PyExc + N.

Definition get_spark_context : Run N := lift active_spark_context.

(** Python's [Enum]: [cls(v)] returns [v] itself when it is a member of
    [cls], else the first member whose value equals [v], else raises
    [ValueError]. *)
Definition Enum_call (cls : EnumClass) (v : PyVal) : PyExc + EnumMember :=
  match v with
  | PyEnum m => if EnumClass_eqb (em_cls m) cls then inr m else inl ValueError
  | PyStr s =>
      match find (fun nv => String.eqb (snd nv) s) (members cls) with
      | Some nv => inr (mkMember cls (fst nv) (snd nv))
      | None => inl ValueError
      end
  | _ => inl ValueError
  end.

(** [cls(v).value] *)
Definition Enum_value (cls : EnumClass) (v : PyVal) : PyExc + string :=
  ebind (Enum_call cls v) (fun m => inr (em_value m)).

(** The spellings an enumeration answers to: one of its members, or the
    string that is the value of one. *)
Definition recognised (cls : EnumClass) (v : PyVal) : Prop :=
  (exists name value, v = PyEnum (mkMember cls name value))
  \/ (exists name value, v = PyStr value /\ In (name, value) (members cls)).

(** [pysc._gateway.jvm.geopyspark.geotrellis.SpatialTiledRasterLayer.<fn>]:
    py4j resolves the name against the JVM and returns a callable. *)
Definition resolve (fn : RemoteFn) : Run RemoteFn :=
  emit (JvmResolve fn) ;;; ret fn.

(** [pysc._jsc.sc()] *)
Definition jsc_sc (pysc : N) : Run JavaObj :=
  emit (JvmSc pysc) ;;; ret (JSparkContext pysc).

(** Calling a resolved entry point: the call is dispatched with its
    positional arguments, and its result (or failure) comes back. *)
Definition py4j_call (fn : RemoteFn) (args : list Arg) : Run JavaObj :=
  emit (RemoteCall fn args) ;;;
  h <- lift (jvm_invoke fn args) ;;
  ret (JLayer h).

(** What the closures of the pipelines do to one element. *)
Definition apply_func (f : PyFunc) (v : PyVal) : PyExc + PyVal :=
  match f with
  | lambda_dumps => ebind (dumps v) (fun b => inr (PyBytes b))
  | lambda_id => inr v
  end.

(** [geoms.map(f)], line 63.  On a collection it runs nothing and returns
    the pipelined collection; on an object with a [map] of its own the
    function is applied to every value there and then; nothing else has the
    attribute. *)
Definition call_map (v : PyVal) (f : PyFunc) : Run PyVal :=
  match v with
  | PyRDD r => ret (PyRDD (RDD.map r f false))
  | PySeries values =>
      mapped <- lift (mapM (apply_func f) values) ;;
      ret (PySeries mapped)
  | _ => raise AttributeError
  end.

(** [wkb_rdd._bypass_serializer = True], line 67: an attribute assignment,
    which the built-in types without a [__dict__] refuse. *)
Definition setattr_bypass_serializer (v : PyVal) (b : bool) : Run PyVal :=
  match v with
  | PyRDD r => ret (PyRDD (RDD.set_bypass_serializer r b))
  | PySeries _ | PyObj _ => ret v
  | _ => raise AttributeError
  end.

(** [wkb_rdd._jrdd], line 69: only a collection has it. *)
Definition getattr_jrdd (v : PyVal) : Run JavaObj :=
  match v with
  | PyRDD r => RDD._jrdd r
  | _ => raise AttributeError
  end.


(** [rasterize], lines 14-78.  The arguments of the call at lines 52-60
    and 69-76 are evaluated left to right, then the call is made. *)
Definition rasterize
    (geoms crs zoom fill_value cell_type options num_partitions
     partitioner : PyVal) : Run TiledRasterLayer :=
  let crs := normalize_crs crs in
  pysc <- get_spark_context ;;
  rasterizer <- resolve rasterizeGeometry ;;
  partitioner <- lift (Enum_value Partitioner partitioner) ;;
  srdd <-
    (if is_list_or_tuple geoms then
       wkb_geoms <- lift (mapM dumps (items_of geoms)) ;;
       sc <- jsc_sc pysc ;;
       fill <- lift (builtin_float fill_value) ;;
       ct <- lift (Enum_value CellType cell_type) ;;
       py4j_call rasterizer
         [Java sc; Py (PyList (List.map PyBytes wkb_geoms)); Py crs; Py zoom;
          Py (PyFloat fill); Py (PyStr ct); Py options; Py num_partitions;
          Py (PyStr partitioner)]
     else
       wkb_rdd <- call_map geoms lambda_dumps ;;
       wkb_rdd <- setattr_bypass_serializer wkb_rdd true ;;
       jrdd <- getattr_jrdd wkb_rdd ;;
       rdd <- JavaRDD_rdd jrdd ;;
       fill <- lift (builtin_float fill_value) ;;
       ct <- lift (Enum_value CellType cell_type) ;;
       py4j_call rasterizer
         [Java rdd; Py crs; Py zoom; Py (PyFloat fill); Py (PyStr ct);
          Py options; Py num_partitions; Py (PyStr partitioner)]) ;;
  ret (mkTiledRasterLayer SPATIAL srdd).

(** [rasterize_features], lines 81-139. *)
Definition rasterize_features
    (features crs zoom cell_type options num_partitions zindex_cell_type
     partitioner : PyVal) : Run TiledRasterLayer :=
  let crs := normalize_crs crs in
  partitioner <- lift (Enum_value Partitioner partitioner) ;;
  pysc <- get_spark_context ;;
  rasterizer <- resolve rasterizeFeaturesWithZIndex ;;
  let ser :=
    ProtoBufSerializer feature_cellvalue_decoder feature_cellvalue_encoder in
  reserialized_rdd <- call_reserialize features ser ;;
  jrdd <- RDD._jrdd reserialized_rdd ;;
  rdd <- JavaRDD_rdd jrdd ;;
  ct <- lift (Enum_value CellType cell_type) ;;
  zct <- lift (Enum_value CellType zindex_cell_type) ;;
  srdd <- py4j_call rasterizer
            [Java rdd; Py crs; Py zoom; Py (PyStr ct); Py options;
             Py num_partitions; Py (PyStr zct); Py (PyStr partitioner)] ;;
  ret (mkTiledRasterLayer SPATIAL srdd).

(** *** What a collection holds once the workers run it

    Nothing above evaluates a pipelined collection: the functions of its
    pipeline run on the workers, when the JVM asks for the data.  [compute]
    is what they produce, partition by partition and element by element,
    and [wire] is what reaches the JVM, each element framed by the
    collection's serializer. *)

Fixpoint compute (r : RDD) : PyExc + list (list PyVal) :=
  match r with
  | ParallelRDD parts _ => inr parts
  | PipelinedRDD prev f _ _ _ =>
      ebind (compute prev) (mapM (mapM (apply_func f)))
  end.

(** [NoOpSerializer] writes the element as it is, and the element must be
    bytes. *)
Definition frame (s : Serializer) (v : PyVal) : PyExc + list byte :=
  match s with
  | NoOpSerializer =>
      match v with
      | PyBytes b => inr b
      | _ => inl TypeError
      end
  | PickleSerializer => inr (pickle_dumps v)
  | ProtoBufSerializer _ enc => codec_encode enc v
  end.

Definition wire (r : RDD) : PyExc + list (list (list byte)) :=
  ebind (compute r) (mapM (mapM (frame (RDD._jrdd_deserializer r)))).

(** A run that raised before any rasterizer call was dispatched. *)
Definition fails_locally {A} (m : Run A) : Prop :=
  (exists e, outcome m = inl e) /\ remote_calls (trace m) = [].

(** ** Facts about [mapM] *)

Lemma mapM_Forall2 {A B} (f : A -> PyExc + B) (l : list A) (l' : list B) :
  mapM f l = inr l' <-> Forall2 (fun x y => f x = inr y) l l'.
Proof.
  revert l'; induction l as [|x xs IH]; intros l'; simpl.
  - split.
    + intros E; injection E as <-; constructor.
    + intros F; inversion F; reflexivity.
  - destruct (f x) as [e|y] eqn:Ex; simpl.
    + split; [discriminate|].
      intros F; inversion F; subst; congruence.
    + destruct (mapM f xs) as [e|ys] eqn:Exs; simpl.
      * split; [discriminate|].
        intros F; inversion F as [|? ? ? ? _ F']; subst.
        apply IH in F'; discriminate.
      * split.
        -- intros E; injection E as <-.
           constructor; [assumption|]; now apply IH.
        -- intros F; inversion F as [|? y' ? ys' Ey F']; subst.
           apply IH in F'.
           f_equal; congruence.
Qed.

Lemma mapM_length {A B} (f : A -> PyExc + B) (l : list A) (l' : list B) :
  mapM f l = inr l' -> List.length l' = List.length l.
Proof.
  intros E; apply mapM_Forall2 in E.
  induction E; simpl; congruence.
Qed.

Lemma mapM_fails {A B} (f : A -> PyExc + B) (l : list A) :
  (exists x, In x l /\ exists e, f x = inl e) <-> (exists e, mapM f l = inl e).
Proof.
  induction l as [|x xs IH]; simpl.
  - split; [intros (? & [] & _) | intros (? & ?); discriminate].
  - destruct (f x) as [e|y] eqn:Ex; simpl.
    + split; intros _; eauto.
    + destruct (mapM f xs) as [e|ys] eqn:Exs; simpl.
      * split; intros _; [eauto|].
        destruct IH as [_ IH]; destruct IH as (x' & Hin & He); eauto.
      * split.
        -- intros (x' & [<-|Hin] & e & He); [congruence|].
           destruct IH as [IH _].
           destruct IH as (? & ?); [eauto | discriminate].
        -- intros (? & ?); discriminate.
Qed.

Lemma mapM_total {A B} (f : A -> PyExc + B) (l : list A) :
  (forall x, In x l -> exists y, f x = inr y) -> exists l', mapM f l = inr l'.
Proof.
  intros H.
  destruct (mapM f l) as [e|l'] eqn:E; [|eauto].
  destruct (proj2 (mapM_fails f l)) as (x & Hin & e' & He); [eauto|].
  destruct (H x Hin) as (y & Hy); congruence.
Qed.

Lemma mapM_inr {A} (l : list A) : mapM (@inr PyExc A) l = inr l.
Proof. induction l as [|x xs IH]; simpl; [|rewrite IH]; reflexivity. Qed.

(** Two passes fuse into one when the second cannot fail on what the first
    produces. *)
Lemma mapM_fuse {A B C} (f : A -> PyExc + B) (g : B -> PyExc + C)
    (h : A -> PyExc + C) (l : list A) :
  (forall x, ebind (f x) g = h x) ->
  (forall x y, f x = inr y -> exists z, g y = inr z) ->
  ebind (mapM f l) (mapM g) = mapM h l.
Proof.
  intros Hh Hg; induction l as [|x xs IH]; simpl; [reflexivity|].
  rewrite <- Hh, <- IH.
  destruct (f x) as [e|y] eqn:Ex; simpl; [reflexivity|].
  destruct (Hg _ _ Ex) as (z & Ez).
  destruct (mapM f xs) as [e|ys]; simpl; rewrite Ez; reflexivity.
Qed.

Lemma mapM_first_failure {A B} (f : A -> PyExc + B)
    (before : list A) (x : A) (after : list A) (e : PyExc) :
  (forall y, In y before -> exists b, f y = inr b) ->
  f x = inl e ->
  mapM f (before ++ x :: after) = inl e.
Proof.
  intros Hb Hx; induction before as [|y ys IH]; simpl.
  - rewrite Hx; reflexivity.
  - destruct (Hb y (or_introl eq_refl)) as (b & ->); simpl.
    rewrite IH; [reflexivity|].
    intros y' Hy'; apply Hb; now right.
Qed.

(** ** Facts about the collections *)

(** Re-tagging leaves a collection with the serializer asked for, unless
    the collection already carries a [ProtoBufSerializer] of other codecs:
    that one compares equal and stays. *)
Lemma reserialize_deserializer (r : RDD) (d e : Codec) :
  (forall d' e',
      RDD._jrdd_deserializer r = ProtoBufSerializer d' e' ->
      d' = d /\ e' = e) ->
  RDD._jrdd_deserializer (RDD._reserialize r (ProtoBufSerializer d e))
  = ProtoBufSerializer d e.
Proof.
  intros H; unfold RDD._reserialize.
  destruct (RDD._jrdd_deserializer r) as [| |d' e'] eqn:E; simpl;
    try reflexivity.
  rewrite E; destruct (H d' e' eq_refl) as [-> ->]; reflexivity.
Qed.

Lemma compute_set_bypass (r : RDD) (b : bool) :
  compute (RDD.set_bypass_serializer r b) = compute r.
Proof. destruct r; reflexivity. Qed.

Lemma mapM_mapM_inr {A} (parts : list (list A)) :
  mapM (mapM (@inr PyExc A)) parts = inr parts.
Proof.
  induction parts as [|p ps IH]; simpl; [reflexivity|].
  rewrite mapM_inr; simpl; rewrite IH; reflexivity.
Qed.

Lemma ebind_assoc {A B C} (x : PyExc + A) (f : A -> PyExc + B)
    (g : B -> PyExc + C) :
  ebind (ebind x f) g = ebind x (fun a => ebind (f a) g).
Proof. destruct x; reflexivity. Qed.

(** Re-tagging leaves the elements alone. *)
Lemma compute_reserialize (r : RDD) (ser : Serializer) :
  compute (RDD._reserialize r ser) = compute r.
Proof.
  unfold RDD._reserialize.
  destruct (Serializer_eqb (RDD._jrdd_deserializer r) ser); [reflexivity|].
  simpl.
  destruct (compute r) as [e|parts]; simpl; [reflexivity|].
  apply mapM_mapM_inr.
Qed.

Lemma getNumPartitions_reserialize (r : RDD) (ser : Serializer) :
  RDD.getNumPartitions (RDD._reserialize r ser) = RDD.getNumPartitions r.
Proof.
  unfold RDD._reserialize.
  destruct (Serializer_eqb (RDD._jrdd_deserializer r) ser); reflexivity.
Qed.

(** The partitions the workers produce are as many as the collection has. *)
Lemma compute_getNumPartitions (r : RDD) (parts : list (list PyVal)) :
  compute r = inr parts -> List.length parts = RDD.getNumPartitions r.
Proof.
  revert parts; induction r as [ps d|prev f p d b IH] using RDD_parent_ind;
    intros parts; simpl.
  - congruence.
  - destruct (compute prev) as [e|ps]; simpl; [discriminate|].
    intros E; apply mapM_length in E.
    rewrite E; now apply IH.
Qed.

(** ** The three submission paths, when every local step succeeds *)

Arguments Enum_value : simpl never.

Lemma rasterize_list_run
    geoms crs zoom fill_value cell_type options num_partitions partitioner
    ctx pv wkbs fv cv :
  is_list_or_tuple geoms = true ->
  active_spark_context = inr ctx ->
  Enum_value Partitioner partitioner = inr pv ->
  mapM dumps (items_of geoms) = inr wkbs ->
  builtin_float fill_value = inr fv ->
  Enum_value CellType cell_type = inr cv ->
  forall args,
    args = [Java (JSparkContext ctx); Py (PyList (List.map PyBytes wkbs));
            Py (normalize_crs crs); Py zoom; Py (PyFloat fv); Py (PyStr cv);
            Py options; Py num_partitions; Py (PyStr pv)] ->
    rasterize geoms crs zoom fill_value cell_type options num_partitions
              partitioner
    = mkRun [JvmResolve rasterizeGeometry; JvmSc ctx;
             RemoteCall rasterizeGeometry args]
            (ebind (jvm_invoke rasterizeGeometry args)
                   (fun h => inr (mkTiledRasterLayer SPATIAL (JLayer h)))).
Proof.
  intros Hl Hctx Hp Hw Hf Hc args ->.
  unfold rasterize, get_spark_context.
  rewrite Hctx, Hl; cbn.
  rewrite Hp; cbn.
  rewrite Hw; cbn.
  rewrite Hf; cbn.
  rewrite Hc; cbn.
  destruct (jvm_invoke _ _); reflexivity.
Qed.

Lemma rasterize_rdd_run
    r crs zoom fill_value cell_type options num_partitions partitioner
    ctx pv fv cv :
  active_spark_context = inr ctx ->
  Enum_value Partitioner partitioner = inr pv ->
  builtin_float fill_value = inr fv ->
  Enum_value CellType cell_type = inr cv ->
  forall wkb_rdd args,
    wkb_rdd = PipelinedRDD r lambda_dumps false NoOpSerializer true ->
    args = [Java (JScalaRDD wkb_rdd); Py (normalize_crs crs); Py zoom;
            Py (PyFloat fv); Py (PyStr cv); Py options; Py num_partitions;
            Py (PyStr pv)] ->
    rasterize (PyRDD r) crs zoom fill_value cell_type options num_partitions
              partitioner
    = mkRun [JvmResolve rasterizeGeometry; JvmPythonRDD wkb_rdd;
             JvmRdd wkb_rdd; RemoteCall rasterizeGeometry args]
            (ebind (jvm_invoke rasterizeGeometry args)
                   (fun h => inr (mkTiledRasterLayer SPATIAL (JLayer h)))).
Proof.
  intros Hctx Hp Hf Hc wkb_rdd args -> ->.
  unfold rasterize, get_spark_context.
  rewrite Hctx; cbn.
  rewrite Hp; cbn.
  rewrite Hf; cbn.
  rewrite Hc; cbn.
  destruct (jvm_invoke _ _); reflexivity.
Qed.

(** Reading [_jrdd] yields a [JavaRDD] handle and dispatches nothing. *)
Lemma jrdd_handle (r : RDD) :
  exists q, outcome (RDD._jrdd r) = inr (JavaRDD q)
            /\ remote_calls (trace (RDD._jrdd r)) = []
            /\ compute q = compute r
            /\ RDD.getNumPartitions q = RDD.getNumPartitions r
            /\ (RDD._bypass_serializer r = false ->
                RDD._jrdd_deserializer q = RDD._jrdd_deserializer r).
Proof.
  destruct r as [parts d|prev f p d b]; simpl.
  - exists (ParallelRDD parts d); repeat split.
  - eexists; repeat split.
    intros ->; reflexivity.
Qed.

Lemma rasterize_features_run
    r crs zoom cell_type options num_partitions zindex_cell_type partitioner
    ctx pv cv zv q :
  active_spark_context = inr ctx ->
  Enum_value Partitioner partitioner = inr pv ->
  Enum_value CellType cell_type = inr cv ->
  Enum_value CellType zindex_cell_type = inr zv ->
  outcome (RDD._jrdd
             (RDD._reserialize r
                (ProtoBufSerializer feature_cellvalue_decoder
                                    feature_cellvalue_encoder)))
  = inr (JavaRDD q) ->
  forall args,
    args = [Java (JScalaRDD q); Py (normalize_crs crs); Py zoom;
            Py (PyStr cv); Py options; Py num_partitions; Py (PyStr zv);
            Py (PyStr pv)] ->
    remote_calls
      (trace (rasterize_features (PyRDD r) crs zoom cell_type options
                                 num_partitions zindex_cell_type partitioner))
    = [RemoteCall rasterizeFeaturesWithZIndex args]
    /\ outcome (rasterize_features (PyRDD r) crs zoom cell_type options
                                   num_partitions zindex_cell_type partitioner)
       = ebind (jvm_invoke rasterizeFeaturesWithZIndex args)
               (fun h => inr (mkTiledRasterLayer SPATIAL (JLayer h))).
Proof.
  intros Hctx Hp Hc Hz Hq args ->.
  unfold rasterize_features, get_spark_context.
  rewrite Hp; cbn.
  rewrite Hctx; cbn.
  destruct (RDD._reserialize r _) as [parts d|prev f p d b];
    cbn in Hq; injection Hq as <-; cbn;
    rewrite Hc; cbn; rewrite Hz; cbn;
    destruct (jvm_invoke _ _); split; reflexivity.
Qed.

(** ** Every path at once: what a dispatched call implies *)

Ltac split_in H :=
  cbn in H;
  repeat (destruct H as [H|H]; [try discriminate H|]);
  try contradiction.

(** Whatever the arguments, a rasterizer call found in the trace of
    [rasterize] was preceded by the success of every local step, and its
    arguments are those of one of the two forms. *)
Lemma rasterize_dispatch
    geoms crs zoom fill_value cell_type options num_partitions partitioner
    fn args :
  In (RemoteCall fn args)
     (trace (rasterize geoms crs zoom fill_value cell_type options
                       num_partitions partitioner)) ->
  exists ctx pv fv cv,
    active_spark_context = inr ctx
    /\ Enum_value Partitioner partitioner = inr pv
    /\ builtin_float fill_value = inr fv
    /\ Enum_value CellType cell_type = inr cv
    /\ fn = rasterizeGeometry
    /\ ((is_list_or_tuple geoms = true
         /\ exists wkbs,
             mapM dumps (items_of geoms) = inr wkbs
             /\ args = [Java (JSparkContext ctx);
                        Py (PyList (List.map PyBytes wkbs));
                        Py (normalize_crs crs); Py zoom; Py (PyFloat fv);
                        Py (PyStr cv); Py options; Py num_partitions;
                        Py (PyStr pv)])
        \/ (exists r,
              geoms = PyRDD r
              /\ args = [Java (JScalaRDD
                                 (PipelinedRDD r lambda_dumps false
                                               NoOpSerializer true));
                         Py (normalize_crs crs); Py zoom; Py (PyFloat fv);
                         Py (PyStr cv); Py options; Py num_partitions;
                         Py (PyStr pv)])).
Proof.
  unfold rasterize, get_spark_context; intros H.
  destruct active_spark_context as [e|ctx]; [split_in H|].
  destruct (Enum_value Partitioner partitioner) as [e|pv]; [split_in H|].
  destruct (builtin_float fill_value) as [e|fv];
    destruct (Enum_value CellType cell_type) as [e'|cv];
    destruct geoms as [| | | | | |l|l| | |r|vs];
    try (destruct (mapM dumps l) as [e''|wkbs] eqn:Hw);
    try (destruct (mapM (apply_func lambda_dumps) vs) as [e''|ms] eqn:Hs);
    cbn in H; try rewrite Hw in H; try rewrite Hs in H; cbn in H;
    try match type of H with
        | context [jvm_invoke ?f ?a] => destruct (jvm_invoke f a)
        end;
    split_in H;
    injection H as <- <-;
    exists ctx, pv, fv, cv; repeat split;
    first [ left; split; [reflexivity|]; exists wkbs; split;
            [assumption|reflexivity]
          | right; exists r; split; reflexivity ].
Qed.

(** A layer comes back only from a dispatched call that the JVM answered. *)
Lemma rasterize_returns
    geoms crs zoom fill_value cell_type options num_partitions partitioner
    layer :
  outcome (rasterize geoms crs zoom fill_value cell_type options
                     num_partitions partitioner) = inr layer ->
  exists args h,
    In (RemoteCall rasterizeGeometry args)
       (trace (rasterize geoms crs zoom fill_value cell_type options
                         num_partitions partitioner))
    /\ jvm_invoke rasterizeGeometry args = inr h
    /\ layer = mkTiledRasterLayer SPATIAL (JLayer h).
Proof.
  unfold rasterize, get_spark_context.
  destruct active_spark_context as [e|ctx]; [discriminate|].
  destruct (Enum_value Partitioner partitioner) as [e|pv]; [discriminate|].
  destruct (builtin_float fill_value) as [e|fv];
    destruct (Enum_value CellType cell_type) as [e'|cv];
    destruct geoms as [| | | | | |l|l| | |r|vs];
    try (destruct (mapM dumps l) as [e''|wkbs] eqn:Hw);
    try (destruct (mapM (apply_func lambda_dumps) vs) as [e''|ms] eqn:Hs);
    cbn; try rewrite Hw; try rewrite Hs; cbn; try discriminate;
    match goal with
    | |- context [jvm_invoke ?f ?a] => destruct (jvm_invoke f a) eqn:Hj
    end;
    cbn; try discriminate;
    intros E; injection E as <-;
    eexists; eexists; (split; [|split; [exact Hj|reflexivity]]);
    cbn; auto.
Qed.

Lemma rasterize_features_dispatch
    features crs zoom cell_type options num_partitions zindex_cell_type
    partitioner fn args :
  In (RemoteCall fn args)
     (trace (rasterize_features features crs zoom cell_type options
                                num_partitions zindex_cell_type partitioner)) ->
  exists ctx pv cv zv r q,
    active_spark_context = inr ctx
    /\ Enum_value Partitioner partitioner = inr pv
    /\ Enum_value CellType cell_type = inr cv
    /\ Enum_value CellType zindex_cell_type = inr zv
    /\ features = PyRDD r
    /\ outcome (RDD._jrdd
                  (RDD._reserialize r
                     (ProtoBufSerializer feature_cellvalue_decoder
                                         feature_cellvalue_encoder)))
       = inr (JavaRDD q)
    /\ fn = rasterizeFeaturesWithZIndex
    /\ args = [Java (JScalaRDD q); Py (normalize_crs crs); Py zoom;
               Py (PyStr cv); Py options; Py num_partitions; Py (PyStr zv);
               Py (PyStr pv)].
Proof.
  unfold rasterize_features, get_spark_context; intros H.
  destruct (Enum_value Partitioner partitioner) as [e|pv]; [split_in H|].
  destruct active_spark_context as [e|ctx]; [split_in H|].
  destruct (Enum_value CellType cell_type) as [e|cv];
    destruct (Enum_value CellType zindex_cell_type) as [e'|zv];
    destruct features as [| | | | | | | | | |r|];
    cbn in H; split_in H;
    destruct (RDD._reserialize r
                (ProtoBufSerializer feature_cellvalue_decoder
                                    feature_cellvalue_encoder))
      as [parts d|prev f p d b] eqn:Hr;
    cbn in H;
    try match type of H with
        | context [jvm_invoke ?f ?a] => destruct (jvm_invoke f a)
        end;
    split_in H;
    injection H as <- <-;
    exists ctx, pv, cv, zv, r; eexists; repeat split;
    rewrite Hr; reflexivity.
Qed.

Lemma rasterize_features_returns
    features crs zoom cell_type options num_partitions zindex_cell_type
    partitioner layer :
  outcome (rasterize_features features crs zoom cell_type options
                              num_partitions zindex_cell_type partitioner)
  = inr layer ->
  exists args h,
    In (RemoteCall rasterizeFeaturesWithZIndex args)
       (trace (rasterize_features features crs zoom cell_type options
                                  num_partitions zindex_cell_type partitioner))
    /\ jvm_invoke rasterizeFeaturesWithZIndex args = inr h
    /\ layer = mkTiledRasterLayer SPATIAL (JLayer h).
Proof.
  unfold rasterize_features, get_spark_context.
  destruct (Enum_value Partitioner partitioner) as [e|pv]; [discriminate|].
  destruct active_spark_context as [e|ctx]; [discriminate|].
  destruct (Enum_value CellType cell_type) as [e|cv];
    destruct (Enum_value CellType zindex_cell_type) as [e'|zv];
    destruct features as [| | | | | | | | | |r|];
    cbn; try discriminate;
    destruct (RDD._reserialize r _) as [parts d|prev f p d b];
    cbn; try discriminate;
    match goal with
    | |- context [jvm_invoke ?f ?a] => destruct (jvm_invoke f a) eqn:Hj
    end;
    cbn; try discriminate;
    intros E; injection E as <-;
    eexists; eexists; (split; [|split; [exact Hj|reflexivity]]);
    cbn; auto.
Qed.

Lemma remote_calls_nil (tr : list Event) :
  (forall fn args, ~ In (RemoteCall fn args) tr) -> remote_calls tr = [].
Proof.
  unfold remote_calls; induction tr as [|ev tr IH]; intros H; simpl.
  - reflexivity.
  - destruct ev; simpl; try (apply IH; intros fn' a' Hin;
                             apply (H fn' a'); now right).
    exfalso; apply (H fn args); now left.
Qed.

(** If no call can have been dispatched, the run raised, and did so
    locally. *)
Lemma rasterize_fails_locally
    geoms crs zoom fill_value cell_type options num_partitions partitioner :
  (forall fn args,
      ~ In (RemoteCall fn args)
           (trace (rasterize geoms crs zoom fill_value cell_type options
                             num_partitions partitioner))) ->
  fails_locally (rasterize geoms crs zoom fill_value cell_type options
                           num_partitions partitioner).
Proof.
  intros H; split; [|now apply remote_calls_nil].
  destruct (outcome _) as [e|layer] eqn:E; [eauto|].
  apply rasterize_returns in E as (args & h & Hin & _).
  exfalso; eapply H; eassumption.
Qed.

Lemma rasterize_features_fails_locally
    features crs zoom cell_type options num_partitions zindex_cell_type
    partitioner :
  (forall fn args,
      ~ In (RemoteCall fn args)
           (trace (rasterize_features features crs zoom cell_type options
                                      num_partitions zindex_cell_type
                                      partitioner))) ->
  fails_locally (rasterize_features features crs zoom cell_type options
                                    num_partitions zindex_cell_type
                                    partitioner).
Proof.
  intros H; split; [|now apply remote_calls_nil].
  destruct (outcome _) as [e|layer] eqn:E; [eauto|].
  apply rasterize_features_returns in E as (args & h & Hin & _).
  exfalso; eapply H; eassumption.
Qed.

(** Whether a run fails locally does not depend on [crs]. *)
Lemma rasterize_local_failure_any_crs
    geoms crs crs' zoom fill_value cell_type options num_partitions
    partitioner :
  fails_locally (rasterize geoms crs zoom fill_value cell_type options
                           num_partitions partitioner) ->
  fails_locally (rasterize geoms crs' zoom fill_value cell_type options
                           num_partitions partitioner).
Proof.
  intros [_ Hnil]; apply rasterize_fails_locally; intros fn args Hin.
  apply rasterize_dispatch in Hin
    as (ctx & pv & fv & cv & Hctx & Hp & Hf & Hc & _
        & [(Hl & wkbs & Hw & _) | (r & -> & _)]).
  - rewrite (rasterize_list_run geoms crs zoom fill_value cell_type options
               num_partitions partitioner ctx pv wkbs fv cv
               Hl Hctx Hp Hw Hf Hc _ eq_refl) in Hnil.
    discriminate Hnil.
  - rewrite (rasterize_rdd_run r crs zoom fill_value cell_type options
               num_partitions partitioner ctx pv fv cv
               Hctx Hp Hf Hc _ _ eq_refl eq_refl) in Hnil.
    discriminate Hnil.
Qed.

Lemma rasterize_features_local_failure_any_crs
    features crs crs' zoom cell_type options num_partitions zindex_cell_type
    partitioner :
  fails_locally (rasterize_features features crs zoom cell_type options
                                    num_partitions zindex_cell_type
                                    partitioner) ->
  fails_locally (rasterize_features features crs' zoom cell_type options
                                    num_partitions zindex_cell_type
                                    partitioner).
Proof.
  intros [_ Hnil]; apply rasterize_features_fails_locally.
  intros fn args Hin.
  apply rasterize_features_dispatch in Hin
    as (ctx & pv & cv & zv & r & q & Hctx & Hp & Hc & Hz & -> & Hq & _).
  destruct (rasterize_features_run r crs zoom cell_type options
              num_partitions zindex_cell_type partitioner ctx pv cv zv q
              Hctx Hp Hc Hz Hq _ eq_refl) as [E _].
  rewrite E in Hnil; discriminate Hnil.
Qed.

Lemma str_int_parses_back (z : Z) :
  option_map Z.of_int (NilZero.int_of_string (str_int z)) = Some z.
Proof.
  unfold str_int.
  rewrite NilZero.isi.
  - simpl; now rewrite DecimalZ.of_to.
  - destruct z as [|p|p]; simpl; try discriminate.
    intros E; injection E as E.
    now apply DecimalPos.Unsigned.to_uint_nonnil in E.
  - destruct z as [|p|p]; simpl; try discriminate.
    intros E; injection E as E.
    now apply DecimalPos.Unsigned.to_uint_nonnil in E.
Qed.

(** ** The claims *)

(** C5.  An integer [crs] is replaced by its decimal spelling on entry, so
    that the code [4326] and the string ["4326"] are the same input from
    then on: the two runs of [rasterize] (and of [rasterize_features]) are
    equal, traces and outcomes.  The spelling is the decimal one (it parses
    back to the integer), a string is left as it is, and the normalised
    value is the crs argument of any call that is dispatched; with the
    other local steps passed the call is dispatched, on a sequence, on a
    collection and on a collection of features, and carries it. *)
Theorem crs_int_coerced_to_decimal_string :
  normalize_crs (PyInt 4326) = PyStr "4326"
  /\ normalize_crs (PyStr "4326") = PyStr "4326"
  /\ (forall z,
         normalize_crs (PyInt z) = PyStr (str_int z)
         /\ option_map Z.of_int (NilZero.int_of_string (str_int z)) = Some z)
  /\ (forall s, normalize_crs (PyStr s) = PyStr s)
  /\ (forall z geoms zoom fill_value cell_type options num_partitions
             partitioner,
         rasterize geoms (PyInt z) zoom fill_value cell_type options
                   num_partitions partitioner
         = rasterize geoms (PyStr (str_int z)) zoom fill_value cell_type
                     options num_partitions partitioner)
  /\ (forall z features zoom cell_type options num_partitions
             zindex_cell_type partitioner,
         rasterize_features features (PyInt z) zoom cell_type options
                            num_partitions zindex_cell_type partitioner
         = rasterize_features features (PyStr (str_int z)) zoom cell_type
                              options num_partitions zindex_cell_type
                              partitioner)
  /\ (forall geoms crs zoom fill_value cell_type options num_partitions
             partitioner fn args,
         In (RemoteCall fn args)
            (trace (rasterize geoms crs zoom fill_value cell_type options
                              num_partitions partitioner)) ->
         nth_error args (if is_list_or_tuple geoms then 2 else 1)
         = Some (Py (normalize_crs crs)))
  /\ (forall features crs zoom cell_type options num_partitions
             zindex_cell_type partitioner fn args,
         In (RemoteCall fn args)
            (trace (rasterize_features features crs zoom cell_type options
                                       num_partitions zindex_cell_type
                                       partitioner)) ->
         nth_error args 1 = Some (Py (normalize_crs crs)))
  /\ (forall geoms crs zoom fill_value cell_type options num_partitions
             partitioner ctx pv wkbs fv cv,
         is_list_or_tuple geoms = true ->
         Forall2 (fun g b => dumps g = inr b) (items_of geoms) wkbs ->
         active_spark_context = inr ctx ->
         Enum_value Partitioner partitioner = inr pv ->
         builtin_float fill_value = inr fv ->
         Enum_value CellType cell_type = inr cv ->
         remote_calls
           (trace (rasterize geoms crs zoom fill_value cell_type options
                             num_partitions partitioner))
         = [RemoteCall rasterizeGeometry
              [Java (JSparkContext ctx);
               Py (PyList (List.map PyBytes wkbs));
               Py (normalize_crs crs); Py zoom; Py (PyFloat fv);
               Py (PyStr cv); Py options; Py num_partitions;
               Py (PyStr pv)]])
  /\ (forall r crs zoom fill_value cell_type options num_partitions
             partitioner ctx pv fv cv,
         active_spark_context = inr ctx ->
         Enum_value Partitioner partitioner = inr pv ->
         builtin_float fill_value = inr fv ->
         Enum_value CellType cell_type = inr cv ->
         remote_calls
           (trace (rasterize (PyRDD r) crs zoom fill_value cell_type options
                             num_partitions partitioner))
         = [RemoteCall rasterizeGeometry
              [Java (JScalaRDD
                       (PipelinedRDD r lambda_dumps false NoOpSerializer
                                     true));
               Py (normalize_crs crs); Py zoom; Py (PyFloat fv);
               Py (PyStr cv); Py options; Py num_partitions;
               Py (PyStr pv)]])
  /\ (forall r crs zoom cell_type options num_partitions zindex_cell_type
             partitioner ctx pv cv zv,
         active_spark_context = inr ctx ->
         Enum_value Partitioner partitioner = inr pv ->
         Enum_value CellType cell_type = inr cv ->
         Enum_value CellType zindex_cell_type = inr zv ->
         exists q,
           remote_calls
             (trace (rasterize_features (PyRDD r) crs zoom cell_type options
                                        num_partitions zindex_cell_type
                                        partitioner))
           = [RemoteCall rasterizeFeaturesWithZIndex
                [Java (JScalaRDD q); Py (normalize_crs crs); Py zoom;
                 Py (PyStr cv); Py options; Py num_partitions;
                 Py (PyStr zv); Py (PyStr pv)]]).
Proof.
  split; [reflexivity|].
  split; [reflexivity|].
  split; [intros z; split; [reflexivity|apply str_int_parses_back]|].
  split; [reflexivity|].
  split; [reflexivity|].
  split; [reflexivity|].
  split; [|split; [|split; [|split]]].
  - intros until args; intros Hin.
    apply rasterize_dispatch in Hin
      as (ctx & pv & fv & cv & _ & _ & _ & _ & _
          & [(-> & wkbs & _ & ->) | (r & -> & ->)]); reflexivity.
  - intros until args; intros Hin.
    apply rasterize_features_dispatch in Hin
      as (ctx & pv & cv & zv & r & q & _ & _ & _ & _ & _ & _ & _ & ->).
    reflexivity.
  - intros until cv; intros Hl Hw Hctx Hp Hf Hc.
    apply mapM_Forall2 in Hw.
    rewrite (rasterize_list_run geoms crs zoom fill_value cell_type options
               num_partitions partitioner ctx pv wkbs fv cv
               Hl Hctx Hp Hw Hf Hc _ eq_refl).
    reflexivity.
  - intros until cv; intros Hctx Hp Hf Hc.
    rewrite (rasterize_rdd_run r crs zoom fill_value cell_type options
               num_partitions partitioner ctx pv fv cv
               Hctx Hp Hf Hc _ _ eq_refl eq_refl).
    reflexivity.
  - intros until zv; intros Hctx Hp Hc Hz.
    destruct (jrdd_handle
                (RDD._reserialize r
                   (ProtoBufSerializer feature_cellvalue_decoder
                                       feature_cellvalue_encoder)))
      as (q & Hq & _).
    exists q.
    exact (proj1 (rasterize_features_run r crs zoom cell_type options
                    num_partitions zindex_cell_type partitioner ctx pv cv zv
                    q Hctx Hp Hc Hz Hq _ eq_refl)).
Qed.

(** A spelling is recognised exactly when it is a member of the class or
    the value of one; anything else is a [ValueError]. *)
Lemma Enum_value_inr (cls : EnumClass) (v : PyVal) (x : string) :
  Enum_value cls v = inr x <->
  (exists name, v = PyEnum (mkMember cls name x))
  \/ (v = PyStr x /\ exists name, In (name, x) (members cls)).
Proof.
  unfold Enum_value, Enum_call; split.
  - destruct v as [| | | |s| | | |m| | |]; simpl; try discriminate.
    + destruct (find _ (members cls)) as [[n y]|] eqn:F; simpl;
        [|discriminate].
      intros E; injection E as <-.
      apply find_some in F as [Hin Hy]; simpl in Hy.
      apply String.eqb_eq in Hy; subst s.
      right; eauto.
    + destruct m as [c n y]; simpl.
      destruct (EnumClass_eqb c cls) eqn:Ec; simpl; [|discriminate].
      intros E; injection E as <-.
      left; exists n; destruct c, cls; try discriminate; reflexivity.
  - intros [(name & ->) | (-> & name & Hin)]; simpl.
    + destruct cls; reflexivity.
    + destruct (find _ (members cls)) as [[n y]|] eqn:F; simpl.
      * apply find_some in F as [_ Hy]; simpl in Hy.
        apply String.eqb_eq in Hy; now subst.
      * apply (find_none _ _ F) in Hin; simpl in Hin.
        now rewrite String.eqb_refl in Hin.
Qed.

Lemma Enum_value_inl (cls : EnumClass) (v : PyVal) (e : PyExc) :
  Enum_value cls v = inl e -> e = ValueError.
Proof.
  unfold Enum_value, Enum_call.
  destruct v as [| | | |s| | | |m| | |]; simpl; try congruence.
  - destruct (find _ (members cls)); simpl; congruence.
  - destruct (EnumClass_eqb (em_cls m) cls); simpl; congruence.
Qed.

Lemma recognised_iff (cls : EnumClass) (v : PyVal) :
  recognised cls v <-> exists x, Enum_value cls v = inr x.
Proof.
  unfold recognised; split.
  - intros [(name & value & ->) | (name & value & -> & Hin)];
      exists value; apply Enum_value_inr; eauto.
  - intros (x & E); apply Enum_value_inr in E
      as [(name & ->) | (-> & name & Hin)]; eauto.
Qed.

Lemma unrecognised_ValueError (cls : EnumClass) (v : PyVal) :
  ~ recognised cls v -> Enum_value cls v = inl ValueError.
Proof.
  intros H; destruct (Enum_value cls v) as [e|x] eqn:E.
  - now rewrite (Enum_value_inl _ _ _ E).
  - exfalso; apply H, recognised_iff; eauto.
Qed.

(** C6.  Each recognised spelling of a member, the string of its value or
    the member itself, resolves to the one value of that member, and
    nothing but a member of the class or the string of a member's value
    resolves at all: any other spelling is a [ValueError].  The resolved
    values are what a dispatched call carries in the cell-type and
    partitioner positions, and with recognised spellings and the other
    local steps passed the call is dispatched.  When a spelling is not
    recognised the run raises with no rasterizer call dispatched. *)
Theorem enum_spellings_resolve_or_fail_locally :
  (forall cls name value,
      In (name, value) (members cls) ->
      Enum_value cls (PyStr value) = inr value
      /\ Enum_value cls (PyEnum (mkMember cls name value)) = inr value)
  /\ (forall cls v e, Enum_value cls v = inl e -> e = ValueError)
  /\ (forall cls v, recognised cls v <-> exists x, Enum_value cls v = inr x)
  /\ (forall cls v, ~ recognised cls v -> Enum_value cls v = inl ValueError)
  /\ (forall cls s,
         (forall name, ~ In (name, s) (members cls)) ->
         Enum_value cls (PyStr s) = inl ValueError)
  /\ (forall geoms crs zoom fill_value cell_type options num_partitions
             partitioner fn args,
         In (RemoteCall fn args)
            (trace (rasterize geoms crs zoom fill_value cell_type options
                              num_partitions partitioner)) ->
         exists cv pv,
           Enum_value CellType cell_type = inr cv
           /\ Enum_value Partitioner partitioner = inr pv
           /\ nth_error args (if is_list_or_tuple geoms then 5 else 4)
              = Some (Py (PyStr cv))
           /\ nth_error args (if is_list_or_tuple geoms then 8 else 7)
              = Some (Py (PyStr pv)))
  /\ (forall features crs zoom cell_type options num_partitions
             zindex_cell_type partitioner fn args,
         In (RemoteCall fn args)
            (trace (rasterize_features features crs zoom cell_type options
                                       num_partitions zindex_cell_type
                                       partitioner)) ->
         exists cv zv pv,
           Enum_value CellType cell_type = inr cv
           /\ Enum_value CellType zindex_cell_type = inr zv
           /\ Enum_value Partitioner partitioner = inr pv
           /\ nth_error args 3 = Some (Py (PyStr cv))
           /\ nth_error args 6 = Some (Py (PyStr zv))
           /\ nth_error args 7 = Some (Py (PyStr pv)))
  /\ (forall geoms crs zoom fill_value cell_type options num_partitions
             partitioner e,
         Enum_value CellType cell_type = inl e
         \/ Enum_value Partitioner partitioner = inl e ->
         fails_locally (rasterize geoms crs zoom fill_value cell_type
                                  options num_partitions partitioner))
  /\ (forall features crs zoom cell_type options num_partitions
             zindex_cell_type partitioner e,
         Enum_value CellType cell_type = inl e
         \/ Enum_value CellType zindex_cell_type = inl e
         \/ Enum_value Partitioner partitioner = inl e ->
         fails_locally (rasterize_features features crs zoom cell_type
                                           options num_partitions
                                           zindex_cell_type partitioner))
  /\ (forall geoms crs zoom fill_value cell_type options num_partitions
             partitioner,
         ~ recognised CellType cell_type
         \/ ~ recognised Partitioner partitioner ->
         fails_locally (rasterize geoms crs zoom fill_value cell_type
                                  options num_partitions partitioner))
  /\ (forall features crs zoom cell_type options num_partitions
             zindex_cell_type partitioner,
         ~ recognised CellType cell_type
         \/ ~ recognised CellType zindex_cell_type
         \/ ~ recognised Partitioner partitioner ->
         fails_locally (rasterize_features features crs zoom cell_type
                                           options num_partitions
                                           zindex_cell_type partitioner))
  /\ (forall r crs zoom fill_value cell_type options num_partitions
             partitioner ctx fv,
         recognised CellType cell_type ->
         recognised Partitioner partitioner ->
         active_spark_context = inr ctx ->
         builtin_float fill_value = inr fv ->
         exists cv pv,
           Enum_value CellType cell_type = inr cv
           /\ Enum_value Partitioner partitioner = inr pv
           /\ remote_calls
                (trace (rasterize (PyRDD r) crs zoom fill_value cell_type
                                  options num_partitions partitioner))
              = [RemoteCall rasterizeGeometry
                   [Java (JScalaRDD
                            (PipelinedRDD r lambda_dumps false NoOpSerializer
                                          true));
                    Py (normalize_crs crs); Py zoom; Py (PyFloat fv);
                    Py (PyStr cv); Py options; Py num_partitions;
                    Py (PyStr pv)]])
  /\ (forall geoms crs zoom fill_value cell_type options num_partitions
             partitioner ctx wkbs fv,
         recognised CellType cell_type ->
         recognised Partitioner partitioner ->
         is_list_or_tuple geoms = true ->
         Forall2 (fun g b => dumps g = inr b) (items_of geoms) wkbs ->
         active_spark_context = inr ctx ->
         builtin_float fill_value = inr fv ->
         exists cv pv,
           Enum_value CellType cell_type = inr cv
           /\ Enum_value Partitioner partitioner = inr pv
           /\ remote_calls
                (trace (rasterize geoms crs zoom fill_value cell_type options
                                  num_partitions partitioner))
              = [RemoteCall rasterizeGeometry
                   [Java (JSparkContext ctx);
                    Py (PyList (List.map PyBytes wkbs));
                    Py (normalize_crs crs); Py zoom; Py (PyFloat fv);
                    Py (PyStr cv); Py options; Py num_partitions;
                    Py (PyStr pv)]])
  /\ (forall r crs zoom cell_type options num_partitions zindex_cell_type
             partitioner ctx,
         recognised CellType cell_type ->
         recognised CellType zindex_cell_type ->
         recognised Partitioner partitioner ->
         active_spark_context = inr ctx ->
         exists cv zv pv q,
           Enum_value CellType cell_type = inr cv
           /\ Enum_value CellType zindex_cell_type = inr zv
           /\ Enum_value Partitioner partitioner = inr pv
           /\ remote_calls
                (trace (rasterize_features (PyRDD r) crs zoom cell_type
                                           options num_partitions
                                           zindex_cell_type partitioner))
              = [RemoteCall rasterizeFeaturesWithZIndex
                   [Java (JScalaRDD q); Py (normalize_crs crs); Py zoom;
                    Py (PyStr cv); Py options; Py num_partitions;
                    Py (PyStr zv); Py (PyStr pv)]]).
Proof.
  assert (Hfail : forall geoms crs zoom fill_value cell_type options
                         num_partitions partitioner e,
             Enum_value CellType cell_type = inl e
             \/ Enum_value Partitioner partitioner = inl e ->
             fails_locally (rasterize geoms crs zoom fill_value cell_type
                                      options num_partitions partitioner)).
  { intros until e; intros H.
    apply rasterize_fails_locally; intros fn args Hin.
    apply rasterize_dispatch in Hin
      as (ctx & pv & fv & cv & _ & Hp & _ & Hc & _).
    destruct H; congruence. }
  assert (Hfail' : forall features crs zoom cell_type options num_partitions
                          zindex_cell_type partitioner e,
             Enum_value CellType cell_type = inl e
             \/ Enum_value CellType zindex_cell_type = inl e
             \/ Enum_value Partitioner partitioner = inl e ->
             fails_locally (rasterize_features features crs zoom cell_type
                                               options num_partitions
                                               zindex_cell_type partitioner)).
  { intros until e; intros H.
    apply rasterize_features_fails_locally; intros fn args Hin.
    apply rasterize_features_dispatch in Hin
      as (ctx & pv & cv & zv & r & q & _ & Hp & Hc & Hz & _).
    destruct H as [H|[H|H]]; congruence. }
  split; [|split; [|split; [|split; [|split]]]].
  - intros cls name value Hin; split; apply Enum_value_inr; eauto.
  - exact Enum_value_inl.
  - exact recognised_iff.
  - exact unrecognised_ValueError.
  - intros cls s Hs; apply unrecognised_ValueError.
    intros [(name & value & E) | (name & value & E & Hin)];
      [discriminate E|].
    injection E as ->; exact (Hs name Hin).
  - split; [|split; [|split; [|split; [|split; [|split; [|split; [|split]]]]]]].
    + intros until args; intros Hin.
      apply rasterize_dispatch in Hin
        as (ctx & pv & fv & cv & _ & Hp & _ & Hc & _
            & [(-> & wkbs & _ & ->) | (r & -> & ->)]);
        exists cv, pv; repeat split; assumption.
    + intros until args; intros Hin.
      apply rasterize_features_dispatch in Hin
        as (ctx & pv & cv & zv & r & q & _ & Hp & Hc & Hz & _ & _ & _ & ->).
      exists cv, zv, pv; repeat split; assumption.
    + exact Hfail.
    + exact Hfail'.
    + intros until partitioner; intros [H|H];
        apply unrecognised_ValueError in H;
        eapply Hfail; eauto.
    + intros until partitioner; intros [H|[H|H]];
        apply unrecognised_ValueError in H;
        eapply Hfail'; eauto.
    + intros until fv; intros Rc Rp Hctx Hf.
      apply recognised_iff in Rc as (cv & Hc), Rp as (pv & Hp).
      exists cv, pv; split; [exact Hc|split; [exact Hp|]].
      rewrite (rasterize_rdd_run r crs zoom fill_value cell_type options
                 num_partitions partitioner ctx pv fv cv
                 Hctx Hp Hf Hc _ _ eq_refl eq_refl).
      reflexivity.
    + intros until fv; intros Rc Rp Hl Hw Hctx Hf.
      apply recognised_iff in Rc as (cv & Hc), Rp as (pv & Hp).
      apply mapM_Forall2 in Hw.
      exists cv, pv; split; [exact Hc|split; [exact Hp|]].
      rewrite (rasterize_list_run geoms crs zoom fill_value cell_type options
                 num_partitions partitioner ctx pv wkbs fv cv
                 Hl Hctx Hp Hw Hf Hc _ eq_refl).
      reflexivity.
    + intros until ctx; intros Rc Rz Rp Hctx.
      apply recognised_iff in Rc as (cv & Hc), Rz as (zv & Hz),
                              Rp as (pv & Hp).
      destruct (jrdd_handle
                  (RDD._reserialize r
                     (ProtoBufSerializer feature_cellvalue_decoder
                                         feature_cellvalue_encoder)))
        as (q & Hq & _).
      exists cv, zv, pv, q.
      split; [exact Hc|split; [exact Hz|split; [exact Hp|]]].
      exact (proj1 (rasterize_features_run r crs zoom cell_type options
                      num_partitions zindex_cell_type partitioner ctx pv cv
                      zv q Hctx Hp Hc Hz Hq _ eq_refl)).
Qed.

(** C3, as the code has it.  A [crs] that is neither a string nor an
    integer is not checked: it is left as it is, it is the crs argument of
    any call that is dispatched, and whether the run fails locally is the
    same as with any other [crs]. *)
Theorem crs_passed_without_check (crs : PyVal) :
  isinstance_int crs = false ->
  isinstance_str crs = false ->
  normalize_crs crs = crs
  /\ (forall geoms zoom fill_value cell_type options num_partitions
             partitioner fn args,
         In (RemoteCall fn args)
            (trace (rasterize geoms crs zoom fill_value cell_type options
                              num_partitions partitioner)) ->
         nth_error args (if is_list_or_tuple geoms then 2 else 1)
         = Some (Py crs))
  /\ (forall features zoom cell_type options num_partitions
             zindex_cell_type partitioner fn args,
         In (RemoteCall fn args)
            (trace (rasterize_features features crs zoom cell_type options
                                       num_partitions zindex_cell_type
                                       partitioner)) ->
         nth_error args 1 = Some (Py crs))
  /\ (forall crs' geoms zoom fill_value cell_type options num_partitions
             partitioner,
         fails_locally (rasterize geoms crs zoom fill_value cell_type
                                  options num_partitions partitioner)
         <-> fails_locally (rasterize geoms crs' zoom fill_value cell_type
                                      options num_partitions partitioner))
  /\ (forall crs' features zoom cell_type options num_partitions
             zindex_cell_type partitioner,
         fails_locally (rasterize_features features crs zoom cell_type
                                           options num_partitions
                                           zindex_cell_type partitioner)
         <-> fails_locally (rasterize_features features crs' zoom cell_type
                                               options num_partitions
                                               zindex_cell_type partitioner)).
Proof.
  intros Hi _.
  assert (E : normalize_crs crs = crs)
    by (destruct crs; try reflexivity; discriminate Hi).
  split; [exact E|split; [|split; [|split]]].
  - intros until args; intros Hin.
    apply rasterize_dispatch in Hin
      as (ctx & pv & fv & cv & _ & _ & _ & _ & _
          & [(-> & wkbs & _ & ->) | (r & -> & ->)]);
      simpl; now rewrite E.
  - intros until args; intros Hin.
    apply rasterize_features_dispatch in Hin
      as (ctx & pv & cv & zv & r & q & _ & _ & _ & _ & _ & _ & _ & ->).
    simpl; now rewrite E.
  - intros; split; apply rasterize_local_failure_any_crs.
  - intros; split; apply rasterize_features_local_failure_any_crs.
Qed.

(** C7.  A list or a tuple whose geometries all encode: each is encoded on
    its own, in order, and the byte strings travel in the one call to
    [rasterizeGeometry] the run dispatches, after the context handle and
    before the scalar parameters in the order of the interface.  What the
    JVM answers is wrapped as a [SPATIAL] layer (and its failure, if it
    fails, is the run's). *)
Theorem rasterize_list_submits_wkb_in_one_call
    geoms crs zoom fill_value cell_type options num_partitions partitioner
    ctx pv wkbs fv cv :
  is_list_or_tuple geoms = true ->
  Forall2 (fun g b => dumps g = inr b) (items_of geoms) wkbs ->
  active_spark_context = inr ctx ->
  Enum_value Partitioner partitioner = inr pv ->
  builtin_float fill_value = inr fv ->
  Enum_value CellType cell_type = inr cv ->
  let run := rasterize geoms crs zoom fill_value cell_type options
                       num_partitions partitioner in
  let args := [Java (JSparkContext ctx);
               Py (PyList (List.map PyBytes wkbs));
               Py (normalize_crs crs); Py zoom; Py (PyFloat fv);
               Py (PyStr cv); Py options; Py num_partitions;
               Py (PyStr pv)] in
  remote_calls (trace run) = [RemoteCall rasterizeGeometry args]
  /\ (forall h,
         jvm_invoke rasterizeGeometry args = inr h ->
         outcome run = inr (mkTiledRasterLayer SPATIAL (JLayer h)))
  /\ (forall e,
         jvm_invoke rasterizeGeometry args = inl e -> outcome run = inl e).
Proof.
  intros Hl Hw Hctx Hp Hf Hc run args.
  apply mapM_Forall2 in Hw.
  unfold run.
  rewrite (rasterize_list_run geoms crs zoom fill_value cell_type options
             num_partitions partitioner ctx pv wkbs fv cv
             Hl Hctx Hp Hw Hf Hc args eq_refl).
  cbn [trace outcome].
  split; [reflexivity|].
  split; intros x ->; reflexivity.
Qed.

(** What the bypassed collection of [rasterize] puts on the wire is the
    encodings themselves. *)
Lemma wire_wkb_rdd (r : RDD) (p : bool) :
  wire (PipelinedRDD r lambda_dumps p NoOpSerializer true)
  = ebind (compute r) (mapM (mapM dumps)).
Proof.
  unfold wire; cbn [compute RDD._jrdd_deserializer].
  rewrite ebind_assoc.
  destruct (compute r) as [e|parts]; [reflexivity|]; cbn [ebind].
  apply mapM_fuse.
  - intros part; apply mapM_fuse.
    + intros g; cbn [apply_func]; destruct (dumps g); reflexivity.
    + intros g y; cbn [apply_func]; destruct (dumps g); [discriminate|].
      intros E; injection E as <-; cbn [frame]; eauto.
  - intros part part' E.
    apply mapM_total; intros y Hy.
    apply mapM_Forall2 in E.
    clear - E Hy.
    induction E as [|g y' gs ys Eg _ IH]; [destruct Hy|].
    destruct Hy as [->|Hy]; [|auto].
    cbn [apply_func] in Eg; destruct (dumps g); [discriminate|].
    injection Eg as <-; cbn [frame]; eauto.
Qed.

(** C1.  A distributed collection: the collection mapped through [dumps]
    has its bypass flag set before its JVM counterpart is built, so that
    its serializer is the one that frames nothing; what reaches the JVM is
    then exactly the encodings, partition by partition; and it is the
    handle of this collection, not a list of byte strings, that is the
    first argument of the call to [rasterizeGeometry]. *)
Theorem rasterize_rdd_bypasses_serializer
    r crs zoom fill_value cell_type options num_partitions partitioner
    ctx pv fv cv :
  active_spark_context = inr ctx ->
  Enum_value Partitioner partitioner = inr pv ->
  builtin_float fill_value = inr fv ->
  Enum_value CellType cell_type = inr cv ->
  exists wkb_rdd,
    outcome (mapped <- call_map (PyRDD r) lambda_dumps ;;
             marked <- setattr_bypass_serializer mapped true ;;
             getattr_jrdd marked)
    = inr (JavaRDD wkb_rdd)
    /\ RDD._bypass_serializer wkb_rdd = true
    /\ RDD._jrdd_deserializer wkb_rdd = NoOpSerializer
    /\ wire wkb_rdd = ebind (compute r) (mapM (mapM dumps))
    /\ remote_calls
         (trace (rasterize (PyRDD r) crs zoom fill_value cell_type options
                           num_partitions partitioner))
       = [RemoteCall rasterizeGeometry
            [Java (JScalaRDD wkb_rdd); Py (normalize_crs crs); Py zoom;
             Py (PyFloat fv); Py (PyStr cv); Py options; Py num_partitions;
             Py (PyStr pv)]].
Proof.
  intros Hctx Hp Hf Hc.
  exists (PipelinedRDD r lambda_dumps false NoOpSerializer true).
  split; [reflexivity|].
  split; [reflexivity|].
  split; [reflexivity|].
  split; [apply wire_wkb_rdd|].
  rewrite (rasterize_rdd_run r crs zoom fill_value cell_type options
             num_partitions partitioner ctx pv fv cv
             Hctx Hp Hf Hc _ _ eq_refl eq_refl).
  reflexivity.
Qed.

Lemma Forall2_concat_length {A B} (R : A -> B -> Prop)
    (ls : list (list A)) (ls' : list (list B)) :
  Forall2 (Forall2 R) ls ls' ->
  List.length (List.concat ls') = List.length (List.concat ls).
Proof.
  induction 1 as [|l l' ls ls' Hl _ IH]; simpl; [reflexivity|].
  rewrite !length_app, IH.
  f_equal; symmetry; eapply Forall2_length; eassumption.
Qed.

Lemma mapM_mapM_Forall2 {A B} (f : A -> PyExc + B)
    (ls : list (list A)) (ls' : list (list B)) :
  mapM (mapM f) ls = inr ls' ->
  Forall2 (Forall2 (fun x y => f x = inr y)) ls ls'.
Proof.
  intros E; apply mapM_Forall2 in E.
  eapply Forall2_impl; [|exact E].
  intros l l' El; now apply mapM_Forall2.
Qed.

Lemma mapM_mapM_total {A B} (f : A -> PyExc + B) (ls : list (list A)) :
  (forall x, In x (List.concat ls) -> exists y, f x = inr y) ->
  exists ls', mapM (mapM f) ls = inr ls'.
Proof.
  intros H; apply mapM_total; intros l Hl.
  apply mapM_total; intros x Hx.
  apply H, in_concat; eauto.
Qed.

Lemma mapM_mapM_fails {A B} (f : A -> PyExc + B) (ls : list (list A))
    (x : A) (e : PyExc) :
  In x (List.concat ls) -> f x = inl e -> exists e', mapM (mapM f) ls = inl e'.
Proof.
  intros Hx He.
  apply in_concat in Hx as (l & Hl & Hx).
  apply mapM_fails; exists l; split; [assumption|].
  apply mapM_fails; eauto.
Qed.

(** C8.  The collection each function submits is its input mapped element
    by element and nothing more.  The collection in the call of [rasterize]
    has as many partitions as the input and, once computed, holds in every
    partition one encoded record per input element, in the input's order;
    the collection in the call of [rasterize_features] has as many
    partitions as the input and the very elements of the input. *)
Theorem per_element_step_preserves_order_and_partitions
    r crs zoom fill_value cell_type options num_partitions zindex_cell_type
    partitioner ctx pv fv cv zv :
  active_spark_context = inr ctx ->
  Enum_value Partitioner partitioner = inr pv ->
  builtin_float fill_value = inr fv ->
  Enum_value CellType cell_type = inr cv ->
  Enum_value CellType zindex_cell_type = inr zv ->
  exists wkb_rdd reserialized_rdd rest rest',
    remote_calls
      (trace (rasterize (PyRDD r) crs zoom fill_value cell_type options
                        num_partitions partitioner))
    = [RemoteCall rasterizeGeometry (Java (JScalaRDD wkb_rdd) :: rest)]
    /\ remote_calls
         (trace (rasterize_features (PyRDD r) crs zoom cell_type options
                                    num_partitions zindex_cell_type
                                    partitioner))
       = [RemoteCall rasterizeFeaturesWithZIndex
            (Java (JScalaRDD reserialized_rdd) :: rest')]
    /\ RDD.getNumPartitions wkb_rdd = RDD.getNumPartitions r
    /\ RDD.getNumPartitions reserialized_rdd = RDD.getNumPartitions r
    /\ compute reserialized_rdd = compute r
    /\ (forall parts,
           compute r = inr parts ->
           (forall parts',
               compute wkb_rdd = inr parts' ->
               List.length parts' = List.length parts
               /\ List.length (List.concat parts')
                  = List.length (List.concat parts)
               /\ Forall2
                    (Forall2 (fun g b =>
                                exists w, dumps g = inr w /\ b = PyBytes w))
                    parts parts')
           /\ ((forall g, In g (List.concat parts) -> exists w, dumps g = inr w) ->
               exists parts', compute wkb_rdd = inr parts')).
Proof.
  intros Hctx Hp Hf Hc Hz.
  destruct (jrdd_handle
              (RDD._reserialize r
                 (ProtoBufSerializer feature_cellvalue_decoder
                                     feature_cellvalue_encoder)))
    as (q & Hq & _ & Hcq & Hnq & _).
  destruct (rasterize_features_run r crs zoom cell_type options
              num_partitions zindex_cell_type partitioner ctx pv cv zv q
              Hctx Hp Hc Hz Hq _ eq_refl) as [Et _].
  exists (PipelinedRDD r lambda_dumps false NoOpSerializer true), q.
  eexists; eexists.
  split.
  { rewrite (rasterize_rdd_run r crs zoom fill_value cell_type options
               num_partitions partitioner ctx pv fv cv
               Hctx Hp Hf Hc _ _ eq_refl eq_refl).
    reflexivity. }
  split; [exact Et|].
  split; [reflexivity|].
  split; [rewrite Hnq; apply getNumPartitions_reserialize|].
  split; [rewrite Hcq; apply compute_reserialize|].
  intros parts Hr; cbn [compute]; rewrite Hr.
  cbn [ebind]; split.
  - intros parts' E.
    assert (F : Forall2
                  (Forall2 (fun g b =>
                              exists w, dumps g = inr w /\ b = PyBytes w))
                  parts parts').
    { apply mapM_mapM_Forall2 in E.
      eapply Forall2_impl; [|exact E].
      intros l l' Hl; eapply Forall2_impl; [|exact Hl].
      intros g b; cbn [apply_func].
      destruct (dumps g) as [e|w]; [discriminate|].
      intros Eb; injection Eb as <-; eauto. }
    split; [symmetry; eapply Forall2_length; exact F|].
    split; [eapply Forall2_concat_length; exact F|exact F].
  - intros Hall; apply mapM_mapM_total.
    intros g Hg; destruct (Hall g Hg) as (w & Hw).
    cbn [apply_func]; rewrite Hw; cbn [ebind]; eauto.
Qed.

Lemma reserialize_bypass (r : RDD) (ser : Serializer) :
  RDD._bypass_serializer r = false ->
  RDD._bypass_serializer (RDD._reserialize r ser) = false.
Proof.
  intros H; unfold RDD._reserialize.
  destruct (Serializer_eqb (RDD._jrdd_deserializer r) ser);
    [assumption|reflexivity].
Qed.



(** C2, as the code has it.  On a list or a tuple a geometry that cannot
    be encoded makes the run raise before any call is dispatched, and a
    call is dispatched only when every geometry was encoded.  On a
    collection nothing is encoded locally: with the scalar parameters
    accepted the one call is dispatched whatever the elements, and an
    element that cannot be encoded makes the submitted collection fail
    when it is computed (for features: when the collection is one that
    [rasterize_features] re-tags, that is, one not already carrying a
    [ProtoBufSerializer] of other codecs). *)
Theorem encoding_failure_is_local_for_sequences_only :
  (forall geoms crs zoom fill_value cell_type options num_partitions
          partitioner g e,
      is_list_or_tuple geoms = true ->
      In g (items_of geoms) ->
      dumps g = inl e ->
      fails_locally (rasterize geoms crs zoom fill_value cell_type options
                               num_partitions partitioner))
  /\ (forall geoms crs zoom fill_value cell_type options num_partitions
             partitioner fn args,
         is_list_or_tuple geoms = true ->
         In (RemoteCall fn args)
            (trace (rasterize geoms crs zoom fill_value cell_type options
                              num_partitions partitioner)) ->
         forall g, In g (items_of geoms) -> exists b, dumps g = inr b)
  /\ (forall r crs zoom fill_value cell_type options num_partitions
             partitioner ctx pv fv cv,
         active_spark_context = inr ctx ->
         Enum_value Partitioner partitioner = inr pv ->
         builtin_float fill_value = inr fv ->
         Enum_value CellType cell_type = inr cv ->
         exists wkb_rdd rest,
           remote_calls
             (trace (rasterize (PyRDD r) crs zoom fill_value cell_type
                               options num_partitions partitioner))
           = [RemoteCall rasterizeGeometry (Java (JScalaRDD wkb_rdd) :: rest)]
           /\ forall parts g e,
               compute r = inr parts ->
               In g (List.concat parts) ->
               dumps g = inl e ->
               exists e', wire wkb_rdd = inl e')
  /\ (forall r crs zoom cell_type options num_partitions zindex_cell_type
             partitioner ctx pv cv zv,
         active_spark_context = inr ctx ->
         Enum_value Partitioner partitioner = inr pv ->
         Enum_value CellType cell_type = inr cv ->
         Enum_value CellType zindex_cell_type = inr zv ->
         exists q rest,
           remote_calls
             (trace (rasterize_features (PyRDD r) crs zoom cell_type options
                                        num_partitions zindex_cell_type
                                        partitioner))
           = [RemoteCall rasterizeFeaturesWithZIndex
                (Java (JScalaRDD q) :: rest)]
           /\ forall parts f e,
               (forall d' e',
                   RDD._jrdd_deserializer r = ProtoBufSerializer d' e' ->
                   d' = feature_cellvalue_decoder
                   /\ e' = feature_cellvalue_encoder) ->
               RDD._bypass_serializer r = false ->
               compute r = inr parts ->
               In f (List.concat parts) ->
               codec_encode feature_cellvalue_encoder f = inl e ->
               exists e', wire q = inl e').
Proof.
  split; [|split; [|split]].
  - intros until e; intros Hl Hg He.
    apply rasterize_fails_locally; intros fn args Hin.
    apply rasterize_dispatch in Hin
      as (ctx & pv & fv & cv & _ & _ & _ & _ & _
          & [(_ & wkbs & Hw & _) | (r & -> & _)]); [|discriminate Hl].
    destruct (proj1 (mapM_fails dumps (items_of geoms))) as (e' & He');
      [eauto|congruence].
  - intros until args; intros Hl Hin g Hg.
    apply rasterize_dispatch in Hin
      as (ctx & pv & fv & cv & _ & _ & _ & _ & _
          & [(_ & wkbs & Hw & _) | (r & -> & _)]); [|discriminate Hl].
    destruct (dumps g) as [e|b] eqn:Eg; [|eauto].
    destruct (proj1 (mapM_fails dumps (items_of geoms))) as (e' & He');
      [eauto|congruence].
  - intros until cv; intros Hctx Hp Hf Hc.
    eexists; eexists; split.
    + rewrite (rasterize_rdd_run r crs zoom fill_value cell_type options
                 num_partitions partitioner ctx pv fv cv
                 Hctx Hp Hf Hc _ _ eq_refl eq_refl).
      reflexivity.
    + intros parts g e Hr Hg He.
      rewrite wire_wkb_rdd, Hr; cbn [ebind].
      eapply mapM_mapM_fails; eassumption.
  - intros until zv; intros Hctx Hp Hc Hz.
    destruct (jrdd_handle
                (RDD._reserialize r
                   (ProtoBufSerializer feature_cellvalue_decoder
                                       feature_cellvalue_encoder)))
      as (q & Hq & _ & Hcq & _ & Hd).
    destruct (rasterize_features_run r crs zoom cell_type options
                num_partitions zindex_cell_type partitioner ctx pv cv zv q
                Hctx Hp Hc Hz Hq _ eq_refl) as [Et _].
    exists q; eexists; split; [exact Et|].
    intros parts f e Htag Hb Hr Hf He.
    unfold wire.
    rewrite Hcq, compute_reserialize, Hr, Hd by now apply reserialize_bypass.
    rewrite reserialize_deserializer by exact Htag; cbn [ebind frame].
    eapply mapM_mapM_fails; eassumption.
Qed.

(** C4, as the code has it.  [num_partitions] is handed to the JVM as the
    argument before the partitioner, unchanged; the collection submitted
    with it has the partitions of the input, as many as before. *)
Theorem num_partitions_passed_through
    r crs zoom fill_value cell_type options num_partitions partitioner
    ctx pv fv cv :
  active_spark_context = inr ctx ->
  Enum_value Partitioner partitioner = inr pv ->
  builtin_float fill_value = inr fv ->
  Enum_value CellType cell_type = inr cv ->
  exists wkb_rdd,
    remote_calls
      (trace (rasterize (PyRDD r) crs zoom fill_value cell_type options
                        num_partitions partitioner))
    = [RemoteCall rasterizeGeometry
         [Java (JScalaRDD wkb_rdd); Py (normalize_crs crs); Py zoom;
          Py (PyFloat fv); Py (PyStr cv); Py options; Py num_partitions;
          Py (PyStr pv)]]
    /\ RDD.getNumPartitions wkb_rdd = RDD.getNumPartitions r
    /\ (forall parts',
           compute wkb_rdd = inr parts' ->
           List.length parts' = RDD.getNumPartitions r).
Proof.
  intros Hctx Hp Hf Hc.
  exists (PipelinedRDD r lambda_dumps false NoOpSerializer true).
  split.
  - rewrite (rasterize_rdd_run r crs zoom fill_value cell_type options
               num_partitions partitioner ctx pv fv cv
               Hctx Hp Hf Hc _ _ eq_refl eq_refl).
    reflexivity.
  - split; [reflexivity|].
    intros parts' E.
    now apply compute_getNumPartitions in E.
Qed.

(** ** Further properties of the two functions *)

Lemma remote_calls_cons_inv (tr : list Event) (ev : Event) (rest : list Event) :
  remote_calls tr = ev :: rest ->
  exists fn args, ev = RemoteCall fn args /\ In (RemoteCall fn args) tr.
Proof.
  intros E.
  assert (Hin : In ev (remote_calls tr)) by (rewrite E; now left).
  unfold remote_calls in Hin; apply filter_In in Hin as [Hin Hb].
  destruct ev; try discriminate Hb; eauto.
Qed.

(** A dispatched call is the only one, and its answer decides the run. *)
Lemma rasterize_dispatched_run
    geoms crs zoom fill_value cell_type options num_partitions partitioner
    fn args :
  In (RemoteCall fn args)
     (trace (rasterize geoms crs zoom fill_value cell_type options
                       num_partitions partitioner)) ->
  remote_calls (trace (rasterize geoms crs zoom fill_value cell_type options
                                 num_partitions partitioner))
  = [RemoteCall fn args]
  /\ outcome (rasterize geoms crs zoom fill_value cell_type options
                        num_partitions partitioner)
     = ebind (jvm_invoke fn args)
             (fun h => inr (mkTiledRasterLayer SPATIAL (JLayer h))).
Proof.
  intros Hin.
  apply rasterize_dispatch in Hin
    as (ctx & pv & fv & cv & Hctx & Hp & Hf & Hc & ->
        & [(Hl & wkbs & Hw & ->) | (r & -> & ->)]).
  - rewrite (rasterize_list_run geoms crs zoom fill_value cell_type options
               num_partitions partitioner ctx pv wkbs fv cv
               Hl Hctx Hp Hw Hf Hc _ eq_refl).
    split; reflexivity.
  - rewrite (rasterize_rdd_run r crs zoom fill_value cell_type options
               num_partitions partitioner ctx pv fv cv
               Hctx Hp Hf Hc _ _ eq_refl eq_refl).
    split; reflexivity.
Qed.

Lemma rasterize_features_dispatched_run
    features crs zoom cell_type options num_partitions zindex_cell_type
    partitioner fn args :
  In (RemoteCall fn args)
     (trace (rasterize_features features crs zoom cell_type options
                                num_partitions zindex_cell_type partitioner)) ->
  remote_calls
    (trace (rasterize_features features crs zoom cell_type options
                               num_partitions zindex_cell_type partitioner))
  = [RemoteCall fn args]
  /\ outcome (rasterize_features features crs zoom cell_type options
                                 num_partitions zindex_cell_type partitioner)
     = ebind (jvm_invoke fn args)
             (fun h => inr (mkTiledRasterLayer SPATIAL (JLayer h))).
Proof.
  intros Hin.
  apply rasterize_features_dispatch in Hin
    as (ctx & pv & cv & zv & r & q & Hctx & Hp & Hc & Hz & -> & Hq & -> & ->).
  exact (rasterize_features_run r crs zoom cell_type options num_partitions
           zindex_cell_type partitioner ctx pv cv zv q
           Hctx Hp Hc Hz Hq _ eq_refl).
Qed.

(** X1.  Whatever the arguments, a run of [rasterize] or of
    [rasterize_features] dispatches at most one rasterizer call. *)
Theorem at_most_one_rasterizer_call :
  (forall geoms crs zoom fill_value cell_type options num_partitions
          partitioner,
      List.length
        (remote_calls
           (trace (rasterize geoms crs zoom fill_value cell_type options
                             num_partitions partitioner))) <= 1)
  /\ (forall features crs zoom cell_type options num_partitions
             zindex_cell_type partitioner,
         List.length
           (remote_calls
              (trace (rasterize_features features crs zoom cell_type options
                                         num_partitions zindex_cell_type
                                         partitioner))) <= 1).
Proof.
  split; intros.
  - destruct (remote_calls _) as [|ev rest] eqn:E; [auto|].
    destruct (remote_calls_cons_inv _ _ _ E) as (fn & args & _ & Hin).
    apply rasterize_dispatched_run in Hin as [Hone _].
    rewrite Hone in E; injection E as <- <-; auto.
  - destruct (remote_calls _) as [|ev rest] eqn:E; [auto|].
    destruct (remote_calls_cons_inv _ _ _ E) as (fn & args & _ & Hin).
    apply rasterize_features_dispatched_run in Hin as [Hone _].
    rewrite Hone in E; injection E as <- <-; auto.
Qed.

(** X2.  The answer of the JVM to the dispatched call is the result of the
    run: its handle comes back wrapped as a [SPATIAL] layer, and its failure
    comes back as it is, with no second attempt; and a layer is returned
    only that way. *)
Theorem jvm_answer_decides_the_result :
  (forall geoms crs zoom fill_value cell_type options num_partitions
          partitioner fn args,
      In (RemoteCall fn args)
         (trace (rasterize geoms crs zoom fill_value cell_type options
                           num_partitions partitioner)) ->
      remote_calls
        (trace (rasterize geoms crs zoom fill_value cell_type options
                          num_partitions partitioner))
      = [RemoteCall fn args]
      /\ (forall h,
             jvm_invoke fn args = inr h ->
             outcome (rasterize geoms crs zoom fill_value cell_type options
                                num_partitions partitioner)
             = inr (mkTiledRasterLayer SPATIAL (JLayer h)))
      /\ (forall e,
             jvm_invoke fn args = inl e ->
             outcome (rasterize geoms crs zoom fill_value cell_type options
                                num_partitions partitioner) = inl e))
  /\ (forall features crs zoom cell_type options num_partitions
             zindex_cell_type partitioner fn args,
         In (RemoteCall fn args)
            (trace (rasterize_features features crs zoom cell_type options
                                       num_partitions zindex_cell_type
                                       partitioner)) ->
         remote_calls
           (trace (rasterize_features features crs zoom cell_type options
                                      num_partitions zindex_cell_type
                                      partitioner))
         = [RemoteCall fn args]
         /\ (forall h,
                jvm_invoke fn args = inr h ->
                outcome (rasterize_features features crs zoom cell_type
                                            options num_partitions
                                            zindex_cell_type partitioner)
                = inr (mkTiledRasterLayer SPATIAL (JLayer h)))
         /\ (forall e,
                jvm_invoke fn args = inl e ->
                outcome (rasterize_features features crs zoom cell_type
                                            options num_partitions
                                            zindex_cell_type partitioner)
                = inl e))
  /\ (forall geoms crs zoom fill_value cell_type options num_partitions
             partitioner layer,
         outcome (rasterize geoms crs zoom fill_value cell_type options
                            num_partitions partitioner) = inr layer ->
         exists args h,
           remote_calls
             (trace (rasterize geoms crs zoom fill_value cell_type options
                               num_partitions partitioner))
           = [RemoteCall rasterizeGeometry args]
           /\ jvm_invoke rasterizeGeometry args = inr h
           /\ layer = mkTiledRasterLayer SPATIAL (JLayer h))
  /\ (forall features crs zoom cell_type options num_partitions
             zindex_cell_type partitioner layer,
         outcome (rasterize_features features crs zoom cell_type options
                                     num_partitions zindex_cell_type
                                     partitioner) = inr layer ->
         exists args h,
           remote_calls
             (trace (rasterize_features features crs zoom cell_type options
                                        num_partitions zindex_cell_type
                                        partitioner))
           = [RemoteCall rasterizeFeaturesWithZIndex args]
           /\ jvm_invoke rasterizeFeaturesWithZIndex args = inr h
           /\ layer = mkTiledRasterLayer SPATIAL (JLayer h)).
Proof.
  split; [|split; [|split]].
  - intros until args; intros Hin.
    apply rasterize_dispatched_run in Hin as [Hone Ho].
    split; [exact Hone|].
    rewrite Ho; split; intros x ->; reflexivity.
  - intros until args; intros Hin.
    apply rasterize_features_dispatched_run in Hin as [Hone Ho].
    split; [exact Hone|].
    rewrite Ho; split; intros x ->; reflexivity.
  - intros until layer; intros E.
    apply rasterize_returns in E as (args & h & Hin & Hj & ->).
    apply rasterize_dispatched_run in Hin as [Hone _]; eauto.
  - intros until layer; intros E.
    apply rasterize_features_returns in E as (args & h & Hin & Hj & ->).
    apply rasterize_features_dispatched_run in Hin as [Hone _]; eauto.
Qed.

(** X3.  Exactly when a call reaches the JVM.  [rasterize] dispatches if
    and only if there is an active context, the partitioner, the fill value
    and the cell type are accepted, and the input is either a list or tuple
    all of whose elements encode, or a collection (whatever it holds).
    [rasterize_features] dispatches if and only if there is an active
    context, the partitioner and both cell types are accepted, and the
    input is a collection. *)
Theorem dispatch_conditions :
  (forall geoms crs zoom fill_value cell_type options num_partitions
          partitioner,
      (exists fn args,
          In (RemoteCall fn args)
             (trace (rasterize geoms crs zoom fill_value cell_type options
                               num_partitions partitioner)))
      <-> ((exists ctx, active_spark_context = inr ctx)
           /\ (exists pv, Enum_value Partitioner partitioner = inr pv)
           /\ (exists fv, builtin_float fill_value = inr fv)
           /\ (exists cv, Enum_value CellType cell_type = inr cv)
           /\ ((is_list_or_tuple geoms = true
                /\ forall g, In g (items_of geoms) -> exists b, dumps g = inr b)
               \/ exists r, geoms = PyRDD r)))
  /\ (forall features crs zoom cell_type options num_partitions
             zindex_cell_type partitioner,
         (exists fn args,
             In (RemoteCall fn args)
                (trace (rasterize_features features crs zoom cell_type options
                                           num_partitions zindex_cell_type
                                           partitioner)))
         <-> ((exists ctx, active_spark_context = inr ctx)
              /\ (exists pv, Enum_value Partitioner partitioner = inr pv)
              /\ (exists cv, Enum_value CellType cell_type = inr cv)
              /\ (exists zv, Enum_value CellType zindex_cell_type = inr zv)
              /\ exists r, features = PyRDD r)).
Proof.
  split; intros; split.
  - intros (fn & args & Hin).
    apply rasterize_dispatch in Hin
      as (ctx & pv & fv & cv & Hctx & Hp & Hf & Hc & _
          & [(Hl & wkbs & Hw & _) | (r & -> & _)]);
      (repeat split; eauto).
    left; split; [assumption|].
    intros g Hg.
    destruct (dumps g) as [e|b] eqn:Eg; [|eauto].
    destruct (proj1 (mapM_fails dumps (items_of geoms))) as (e' & He');
      [eauto|congruence].
  - intros ((ctx & Hctx) & (pv & Hp) & (fv & Hf) & (cv & Hc)
            & [(Hl & Hall) | (r & ->)]).
    + destruct (mapM_total dumps (items_of geoms) Hall) as (wkbs & Hw).
      eexists; eexists.
      rewrite (rasterize_list_run geoms crs zoom fill_value cell_type options
                 num_partitions partitioner ctx pv wkbs fv cv
                 Hl Hctx Hp Hw Hf Hc _ eq_refl).
      cbn [trace]; right; right; left; reflexivity.
    + eexists; eexists.
      rewrite (rasterize_rdd_run r crs zoom fill_value cell_type options
                 num_partitions partitioner ctx pv fv cv
                 Hctx Hp Hf Hc _ _ eq_refl eq_refl).
      cbn [trace]; right; right; right; left; reflexivity.
  - intros (fn & args & Hin).
    apply rasterize_features_dispatch in Hin
      as (ctx & pv & cv & zv & r & q & Hctx & Hp & Hc & Hz & -> & _).
    repeat split; eauto.
  - intros ((ctx & Hctx) & (pv & Hp) & (cv & Hc) & (zv & Hz) & (r & ->)).
    destruct (jrdd_handle
                (RDD._reserialize r
                   (ProtoBufSerializer feature_cellvalue_decoder
                                       feature_cellvalue_encoder)))
      as (q & Hq & _).
    destruct (rasterize_features_run r crs zoom cell_type options
                num_partitions zindex_cell_type partitioner ctx pv cv zv q
                Hctx Hp Hc Hz Hq _ eq_refl) as [Et _].
    eexists; eexists.
    apply (proj1 (filter_In is_remote_call _ _)).
    unfold remote_calls in Et; rewrite Et; now left.
Qed.

(** X4.  On a list or a tuple the geometries are encoded in order and the
    first one that does not encode ends the run: its exception is the one
    raised, the elements after it are not looked at, and the only thing
    that happened on the gateway is the resolution of the entry point. *)
Theorem first_unencodable_geometry_is_raised
    geoms crs zoom fill_value cell_type options num_partitions partitioner
    ctx pv before g after e :
  is_list_or_tuple geoms = true ->
  items_of geoms = before ++ g :: after ->
  (forall x, In x before -> exists b, dumps x = inr b) ->
  dumps g = inl e ->
  active_spark_context = inr ctx ->
  Enum_value Partitioner partitioner = inr pv ->
  rasterize geoms crs zoom fill_value cell_type options num_partitions
            partitioner
  = mkRun [JvmResolve rasterizeGeometry] (inl e).
Proof.
  intros Hl Hitems Hb Hg Hctx Hp.
  unfold rasterize, get_spark_context.
  rewrite Hctx, Hl; cbn.
  rewrite Hp; cbn.
  rewrite Hitems, (mapM_first_failure dumps before g after e Hb Hg).
  reflexivity.
Qed.

(** X5.  A fill value that [float] rejects makes [rasterize] raise without
    dispatching a call.  With the earlier steps passed the exception is
    [float]'s own, whatever the cell type: on a list or tuple after the
    geometries were encoded and the context handle fetched, on a collection
    after its JVM counterpart was built. *)
Theorem fill_value_conversion_failure
    geoms crs zoom fill_value cell_type options num_partitions partitioner e :
  builtin_float fill_value = inl e ->
  fails_locally (rasterize geoms crs zoom fill_value cell_type options
                           num_partitions partitioner)
  /\ (forall ctx pv,
         active_spark_context = inr ctx ->
         Enum_value Partitioner partitioner = inr pv ->
         is_list_or_tuple geoms = true ->
         (forall g, In g (items_of geoms) -> exists b, dumps g = inr b) ->
         rasterize geoms crs zoom fill_value cell_type options num_partitions
                   partitioner
         = mkRun [JvmResolve rasterizeGeometry; JvmSc ctx] (inl e))
  /\ (forall ctx pv r,
         active_spark_context = inr ctx ->
         Enum_value Partitioner partitioner = inr pv ->
         geoms = PyRDD r ->
         rasterize geoms crs zoom fill_value cell_type options num_partitions
                   partitioner
         = mkRun [JvmResolve rasterizeGeometry;
                  JvmPythonRDD (PipelinedRDD r lambda_dumps false
                                             NoOpSerializer true);
                  JvmRdd (PipelinedRDD r lambda_dumps false NoOpSerializer
                                       true)]
                 (inl e)).
Proof.
  intros Hf; split; [|split].
  - apply rasterize_fails_locally; intros fn args Hin.
    apply rasterize_dispatch in Hin as (ctx & pv & fv & cv & _ & _ & Hf' & _).
    congruence.
  - intros ctx pv Hctx Hp Hl Hall.
    destruct (mapM_total dumps (items_of geoms) Hall) as (wkbs & Hw).
    unfold rasterize, get_spark_context.
    rewrite Hctx, Hl; cbn.
    rewrite Hp; cbn.
    rewrite Hw; cbn.
    rewrite Hf; reflexivity.
  - intros ctx pv r Hctx Hp ->.
    unfold rasterize, get_spark_context.
    rewrite Hctx; cbn.
    rewrite Hp; cbn.
    rewrite Hf; reflexivity.
Qed.

(** X6.  [rasterize_features] takes a collection and nothing else: on any
    other input, a list or a tuple of features included, it raises without
    dispatching a call, and with a context and a recognised partitioner the
    exception is the [AttributeError] of [features._reserialize], raised
    right after the entry point was resolved. *)
Theorem rasterize_features_needs_a_collection
    features crs zoom cell_type options num_partitions zindex_cell_type
    partitioner :
  (forall r, features <> PyRDD r) ->
  fails_locally (rasterize_features features crs zoom cell_type options
                                    num_partitions zindex_cell_type
                                    partitioner)
  /\ (forall ctx pv,
         active_spark_context = inr ctx ->
         Enum_value Partitioner partitioner = inr pv ->
         rasterize_features features crs zoom cell_type options
                            num_partitions zindex_cell_type partitioner
         = mkRun [JvmResolve rasterizeFeaturesWithZIndex]
                 (inl AttributeError)).
Proof.
  intros Hr; split.
  - apply rasterize_features_fails_locally; intros fn args Hin.
    apply rasterize_features_dispatch in Hin
      as (ctx & pv & cv & zv & r & q & _ & _ & _ & _ & E & _).
    exact (Hr r E).
  - intros ctx pv Hctx Hp.
    unfold rasterize_features, get_spark_context.
    rewrite Hp; cbn.
    rewrite Hctx; cbn.
    destruct features; try reflexivity.
    exfalso; eapply Hr; reflexivity.
Qed.

(** X7.  What is checked first.  Without an active context [rasterize]
    raises the context's exception before anything else happens, whatever
    the other arguments are.  [rasterize_features] looks at the partitioner
    before it asks for the context: an unrecognised partitioner is a
    [ValueError] with no gateway traffic at all, context or not, and the
    context's exception is raised only behind a recognised partitioner.  In
    [rasterize] the unrecognised partitioner is found after the entry point
    was resolved. *)
Theorem checks_that_come_first :
  (forall e geoms crs zoom fill_value cell_type options num_partitions
          partitioner,
      active_spark_context = inl e ->
      rasterize geoms crs zoom fill_value cell_type options num_partitions
                partitioner
      = mkRun [] (inl e))
  /\ (forall e features crs zoom cell_type options num_partitions
             zindex_cell_type partitioner,
         Enum_value Partitioner partitioner = inl e ->
         rasterize_features features crs zoom cell_type options
                            num_partitions zindex_cell_type partitioner
         = mkRun [] (inl ValueError))
  /\ (forall e pv features crs zoom cell_type options num_partitions
             zindex_cell_type partitioner,
         active_spark_context = inl e ->
         Enum_value Partitioner partitioner = inr pv ->
         rasterize_features features crs zoom cell_type options
                            num_partitions zindex_cell_type partitioner
         = mkRun [] (inl e))
  /\ (forall ctx e geoms crs zoom fill_value cell_type options num_partitions
             partitioner,
         active_spark_context = inr ctx ->
         Enum_value Partitioner partitioner = inl e ->
         rasterize geoms crs zoom fill_value cell_type options num_partitions
                   partitioner
         = mkRun [JvmResolve rasterizeGeometry] (inl ValueError)).
Proof.
  split; [|split; [|split]].
  - intros until partitioner; intros Hctx.
    unfold rasterize, get_spark_context; rewrite Hctx; reflexivity.
  - intros until partitioner; intros Hp.
    rewrite (Enum_value_inl _ _ _ Hp) in Hp.
    unfold rasterize_features; rewrite Hp; reflexivity.
  - intros until partitioner; intros Hctx Hp.
    unfold rasterize_features, get_spark_context.
    rewrite Hp; cbn; rewrite Hctx; reflexivity.
  - intros until partitioner; intros Hctx Hp.
    rewrite (Enum_value_inl _ _ _ Hp) in Hp.
    unfold rasterize, get_spark_context.
    rewrite Hctx; cbn; rewrite Hp; reflexivity.
Qed.

(** Whether a run fails locally depends on none of crs, zoom, options and
    the number of partitions. *)
Lemma rasterize_local_failure_any_scalars
    geoms crs crs' zoom zoom' fill_value cell_type options options'
    num_partitions num_partitions' partitioner :
  fails_locally (rasterize geoms crs zoom fill_value cell_type options
                           num_partitions partitioner) ->
  fails_locally (rasterize geoms crs' zoom' fill_value cell_type options'
                           num_partitions' partitioner).
Proof.
  intros [_ Hnil]; apply rasterize_fails_locally; intros fn args Hin.
  apply rasterize_dispatch in Hin
    as (ctx & pv & fv & cv & Hctx & Hp & Hf & Hc & _
        & [(Hl & wkbs & Hw & _) | (r & -> & _)]).
  - rewrite (rasterize_list_run geoms crs zoom fill_value cell_type options
               num_partitions partitioner ctx pv wkbs fv cv
               Hl Hctx Hp Hw Hf Hc _ eq_refl) in Hnil.
    discriminate Hnil.
  - rewrite (rasterize_rdd_run r crs zoom fill_value cell_type options
               num_partitions partitioner ctx pv fv cv
               Hctx Hp Hf Hc _ _ eq_refl eq_refl) in Hnil.
    discriminate Hnil.
Qed.

Lemma rasterize_features_local_failure_any_scalars
    features crs crs' zoom zoom' cell_type options options' num_partitions
    num_partitions' zindex_cell_type partitioner :
  fails_locally (rasterize_features features crs zoom cell_type options
                                    num_partitions zindex_cell_type
                                    partitioner) ->
  fails_locally (rasterize_features features crs' zoom' cell_type options'
                                    num_partitions' zindex_cell_type
                                    partitioner).
Proof.
  intros [_ Hnil]; apply rasterize_features_fails_locally.
  intros fn args Hin.
  apply rasterize_features_dispatch in Hin
    as (ctx & pv & cv & zv & r & q & Hctx & Hp & Hc & Hz & -> & Hq & _).
  destruct (rasterize_features_run r crs zoom cell_type options
              num_partitions zindex_cell_type partitioner ctx pv cv zv q
              Hctx Hp Hc Hz Hq _ eq_refl) as [E _].
  rewrite E in Hnil; discriminate Hnil.
Qed.

(** X8.  Zoom, options and the number of partitions are never looked at:
    each is the argument in its position of any call that is dispatched,
    exactly as given, and whether a run raises locally is the same whatever
    their values. *)
Theorem zoom_options_num_partitions_are_opaque :
  (forall geoms crs zoom fill_value cell_type options num_partitions
          partitioner fn args,
      In (RemoteCall fn args)
         (trace (rasterize geoms crs zoom fill_value cell_type options
                           num_partitions partitioner)) ->
      nth_error args (if is_list_or_tuple geoms then 3 else 2)
      = Some (Py zoom)
      /\ nth_error args (if is_list_or_tuple geoms then 6 else 5)
         = Some (Py options)
      /\ nth_error args (if is_list_or_tuple geoms then 7 else 6)
         = Some (Py num_partitions))
  /\ (forall features crs zoom cell_type options num_partitions
             zindex_cell_type partitioner fn args,
         In (RemoteCall fn args)
            (trace (rasterize_features features crs zoom cell_type options
                                       num_partitions zindex_cell_type
                                       partitioner)) ->
         nth_error args 2 = Some (Py zoom)
         /\ nth_error args 4 = Some (Py options)
         /\ nth_error args 5 = Some (Py num_partitions))
  /\ (forall geoms crs zoom zoom' fill_value cell_type options options'
             num_partitions num_partitions' partitioner,
         fails_locally (rasterize geoms crs zoom fill_value cell_type options
                                  num_partitions partitioner)
         <-> fails_locally (rasterize geoms crs zoom' fill_value cell_type
                                      options' num_partitions' partitioner))
  /\ (forall features crs zoom zoom' cell_type options options'
             num_partitions num_partitions' zindex_cell_type partitioner,
         fails_locally (rasterize_features features crs zoom cell_type
                                           options num_partitions
                                           zindex_cell_type partitioner)
         <-> fails_locally (rasterize_features features crs zoom' cell_type
                                               options' num_partitions'
                                               zindex_cell_type partitioner)).
Proof.
  split; [|split; [|split]].
  - intros until args; intros Hin.
    apply rasterize_dispatch in Hin
      as (ctx & pv & fv & cv & _ & _ & _ & _ & _
          & [(-> & wkbs & _ & ->) | (r & -> & ->)]);
      repeat split.
  - intros until args; intros Hin.
    apply rasterize_features_dispatch in Hin
      as (ctx & pv & cv & zv & r & q & _ & _ & _ & _ & _ & _ & _ & ->).
    repeat split.
  - intros; split; apply rasterize_local_failure_any_scalars.
  - intros; split; apply rasterize_features_local_failure_any_scalars.
Qed.

(** X9.  The normalisation of crs loses nothing on integers: it is
    idempotent, what it returns is never an [int], two different integer
    codes get two different strings, and the spelling of a [bool] ("True",
    "False") is the spelling of no integer. *)
Theorem crs_normalisation_is_lossless_on_integers :
  (forall crs, normalize_crs (normalize_crs crs) = normalize_crs crs)
  /\ (forall crs, isinstance_int (normalize_crs crs) = false)
  /\ (forall z1 z2,
         normalize_crs (PyInt z1) = normalize_crs (PyInt z2) -> z1 = z2)
  /\ (forall b z, normalize_crs (PyBool b) <> normalize_crs (PyInt z)).
Proof.
  split; [|split; [|split]].
  - intros []; reflexivity.
  - intros []; reflexivity.
  - intros z1 z2 E; simpl in E; injection E as E.
    pose proof (str_int_parses_back z1) as H1.
    rewrite E, str_int_parses_back in H1; congruence.
  - intros b z E; simpl in E; injection E as E.
    pose proof (str_int_parses_back z) as Hz.
    rewrite <- E in Hz; destruct b; discriminate Hz.
Qed.

(** X10.  Re-tagging happens at most once.  A collection that already
    carries the feature/CellValue serializer is taken as it is, re-tagging a
    re-tagged collection changes nothing, and so [rasterize_features] runs
    the same on a collection and on its re-tagged form. *)
Theorem retagging_is_idempotent
    r crs zoom cell_type options num_partitions zindex_cell_type partitioner :
  let ser :=
    ProtoBufSerializer feature_cellvalue_decoder feature_cellvalue_encoder in
  (RDD._jrdd_deserializer r = ser -> RDD._reserialize r ser = r)
  /\ RDD._reserialize (RDD._reserialize r ser) ser = RDD._reserialize r ser
  /\ rasterize_features (PyRDD (RDD._reserialize r ser)) crs zoom cell_type
                        options num_partitions zindex_cell_type partitioner
     = rasterize_features (PyRDD r) crs zoom cell_type options num_partitions
                          zindex_cell_type partitioner.
Proof.
  intros ser.
  assert (Hfix : forall q, RDD._jrdd_deserializer q = ser ->
                           RDD._reserialize q ser = q).
  { intros q Hq; unfold RDD._reserialize; rewrite Hq; reflexivity. }
  assert (Hidem : RDD._reserialize (RDD._reserialize r ser) ser
                  = RDD._reserialize r ser).
  { destruct (Serializer_eqb (RDD._jrdd_deserializer r) ser) eqn:E.
    - assert (R : RDD._reserialize r ser = r)
        by (unfold RDD._reserialize; rewrite E; reflexivity).
      rewrite !R; reflexivity.
    - assert (R : RDD._reserialize r ser
                  = RDD.set_jrdd_deserializer (RDD.map r lambda_id true) ser)
        by (unfold RDD._reserialize; rewrite E; reflexivity).
      rewrite R; apply Hfix; reflexivity. }
  split; [apply Hfix|].
  split; [exact Hidem|].
  unfold rasterize_features, call_reserialize.
  fold ser; rewrite Hidem; reflexivity.
Qed.

(** X11.  An enumeration accepts its own members and no one else's.  A
    member of the class is accepted with its value, whatever the table
    says; a member of the other class is a [ValueError], even when its
    value is one the class knows; so is anything that is neither a string
    nor a member.  A cell type given for the partitioner stops [rasterize]
    right after the entry point was resolved. *)
Theorem enum_accepts_its_own_members_only :
  (forall cls m,
      em_cls m = cls -> Enum_value cls (PyEnum m) = inr (em_value m))
  /\ (forall cls m,
         em_cls m <> cls -> Enum_value cls (PyEnum m) = inl ValueError)
  /\ (forall cls v,
         (forall s, v <> PyStr s) ->
         (forall m, v <> PyEnum m) ->
         Enum_value cls v = inl ValueError)
  /\ (forall m ctx geoms crs zoom fill_value cell_type options
             num_partitions,
         em_cls m = CellType ->
         active_spark_context = inr ctx ->
         rasterize geoms crs zoom fill_value cell_type options num_partitions
                   (PyEnum m)
         = mkRun [JvmResolve rasterizeGeometry] (inl ValueError)).
Proof.
  assert (Hown : forall cls m,
             em_cls m = cls -> Enum_value cls (PyEnum m) = inr (em_value m)).
  { intros cls m <-; unfold Enum_value, Enum_call.
    destruct (em_cls m); reflexivity. }
  assert (Hother : forall cls m,
             em_cls m <> cls -> Enum_value cls (PyEnum m) = inl ValueError).
  { intros cls m Hne; unfold Enum_value, Enum_call.
    destruct (em_cls m), cls; try reflexivity; exfalso; now apply Hne. }
  split; [exact Hown|].
  split; [exact Hother|].
  split.
  - intros cls v Hs Hm; unfold Enum_value, Enum_call.
    destruct v; try reflexivity.
    + exfalso; eapply Hs; reflexivity.
    + exfalso; eapply Hm; reflexivity.
  - intros until num_partitions; intros Hm Hctx.
    unfold rasterize, get_spark_context.
    rewrite Hctx; cbn.
    rewrite Hother by (rewrite Hm; discriminate).
    reflexivity.
Qed.

(** X12.  A tuple and a list of the same geometries are the same input:
    the encodings travel as a list either way.  And an empty sequence is not
    turned away: with the scalar parameters accepted the call is dispatched
    with an empty list of encodings, whatever the encoder. *)
Theorem sequence_kind_is_forgotten_and_empty_is_sent :
  (forall l crs zoom fill_value cell_type options num_partitions partitioner,
      rasterize (PyTuple l) crs zoom fill_value cell_type options
                num_partitions partitioner
      = rasterize (PyList l) crs zoom fill_value cell_type options
                  num_partitions partitioner)
  /\ (forall crs zoom fill_value cell_type options num_partitions partitioner
             ctx pv fv cv,
         active_spark_context = inr ctx ->
         Enum_value Partitioner partitioner = inr pv ->
         builtin_float fill_value = inr fv ->
         Enum_value CellType cell_type = inr cv ->
         remote_calls
           (trace (rasterize (PyList []) crs zoom fill_value cell_type options
                             num_partitions partitioner))
         = [RemoteCall rasterizeGeometry
              [Java (JSparkContext ctx); Py (PyList []);
               Py (normalize_crs crs); Py zoom; Py (PyFloat fv);
               Py (PyStr cv); Py options; Py num_partitions;
               Py (PyStr pv)]]).
Proof.
  split.
  - reflexivity.
  - intros until cv; intros Hctx Hp Hf Hc.
    rewrite (rasterize_list_run (PyList []) crs zoom fill_value cell_type
               options num_partitions partitioner ctx pv [] fv cv
               eq_refl Hctx Hp eq_refl Hf Hc _ eq_refl).
    reflexivity.
Qed.

End Rasterize.

(** ** The theorems at work on the concrete environment *)

Abbreviation sample_rasterize :=
  (rasterize Sample.dumps Sample.builtin_float Sample.jvm_invoke
             Sample.members Sample.active_spark_context).

Abbreviation sample_rasterize_features :=
  (rasterize_features Sample.jvm_invoke Sample.members
                      Sample.active_spark_context).

Abbreviation sample_wire :=
  (wire Sample.dumps Sample.pickle_dumps Sample.codec_encode).

Abbreviation wkb1 := [x01; x01; x00; x00; x00; x01].
Abbreviation wkb2 := [x01; x01; x00; x00; x00; x02].

(** Two points in a list, with an integer crs and an integer fill value. *)
Lemma rasterize_list_submits_wkb_in_one_call_witness :
  remote_calls
    (trace (sample_rasterize (PyList [Sample.p1; Sample.p2]) (PyInt 4326)
              (PyInt 12) (PyInt 1) Sample.FLOAT64 PyNone PyNone
              (PyStr "HashPartitioner")))
  = [RemoteCall rasterizeGeometry
       [Java (JSparkContext 1); Py (PyList [PyBytes wkb1; PyBytes wkb2]);
        Py (PyStr "4326"); Py (PyInt 12); Py (PyFloat 1); Py (PyStr "float64");
        Py PyNone; Py PyNone; Py (PyStr "HashPartitioner")]]
  /\ outcome (sample_rasterize (PyList [Sample.p1; Sample.p2]) (PyInt 4326)
                (PyInt 12) (PyInt 1) Sample.FLOAT64 PyNone PyNone
                (PyStr "HashPartitioner"))
     = inr (mkTiledRasterLayer SPATIAL (JLayer 7)).
Proof.
  destruct (rasterize_list_submits_wkb_in_one_call
              Sample.dumps Sample.builtin_float Sample.jvm_invoke
              Sample.members Sample.active_spark_context
              (PyList [Sample.p1; Sample.p2]) (PyInt 4326) (PyInt 12)
              (PyInt 1) Sample.FLOAT64 PyNone PyNone (PyStr "HashPartitioner")
              1%N "HashPartitioner" [wkb1; wkb2] 1%float "float64"
              eq_refl
              ltac:(simpl; repeat constructor)
              eq_refl eq_refl eq_refl eq_refl)
    as (Hcalls & Hok & _).
  split; [exact Hcalls|].
  apply Hok; reflexivity.
Defined.

(** A collection of two points in two partitions. *)
Lemma rasterize_rdd_bypasses_serializer_witness :
  exists wkb_rdd,
    RDD._bypass_serializer wkb_rdd = true
    /\ RDD._jrdd_deserializer wkb_rdd = NoOpSerializer
    /\ sample_wire wkb_rdd = inr [[wkb1]; [wkb2]]
    /\ remote_calls
         (trace (sample_rasterize (PyRDD Sample.points) (PyStr "EPSG:4326")
                   (PyInt 12) (PyFloat 1.5) (PyStr "float64") PyNone PyNone
                   Sample.HASH_PARTITIONER))
       = [RemoteCall rasterizeGeometry
            [Java (JScalaRDD wkb_rdd); Py (PyStr "EPSG:4326"); Py (PyInt 12);
             Py (PyFloat 1.5); Py (PyStr "float64"); Py PyNone; Py PyNone;
             Py (PyStr "HashPartitioner")]].
Proof.
  destruct (rasterize_rdd_bypasses_serializer
              Sample.dumps Sample.builtin_float Sample.jvm_invoke
              Sample.pickle_dumps Sample.codec_encode Sample.members
              Sample.active_spark_context
              Sample.points (PyStr "EPSG:4326") (PyInt 12) (PyFloat 1.5)
              (PyStr "float64") PyNone PyNone Sample.HASH_PARTITIONER
              1%N "HashPartitioner" 1.5%float "float64"
              eq_refl eq_refl eq_refl eq_refl)
    as (wkb_rdd & _ & Hb & Hd & Hw & Hcalls).
  exists wkb_rdd.
  split; [exact Hb|].
  split; [exact Hd|].
  split; [rewrite Hw; reflexivity|exact Hcalls].
Defined.

(** Without the flag the same collection would reach the JVM pickled. *)
Example wire_without_bypass :
  sample_wire (RDD.map Sample.points lambda_dumps false)
  = inr [[x80 :: x43 :: wkb1 ++ [x2e]]; [x80 :: x43 :: wkb2 ++ [x2e]]].
Proof. reflexivity. Qed.

Lemma crs_passed_without_check_witness :
  isinstance_int PyNone = false
  /\ isinstance_str PyNone = false
  /\ normalize_crs PyNone = PyNone.
Proof.
  split; [reflexivity|].
  split; [reflexivity|].
  exact (proj1 (crs_passed_without_check
                  Sample.dumps Sample.builtin_float Sample.jvm_invoke
                  Sample.members Sample.active_spark_context
                  PyNone eq_refl eq_refl)).
Defined.

Lemma num_partitions_passed_through_witness :
  exists wkb_rdd,
    remote_calls
      (trace (sample_rasterize (PyRDD Sample.points) (PyInt 4326) (PyInt 12)
                (PyInt 1) Sample.FLOAT64 PyNone (PyInt 4)
                Sample.HASH_PARTITIONER))
    = [RemoteCall rasterizeGeometry
         [Java (JScalaRDD wkb_rdd); Py (PyStr "4326"); Py (PyInt 12);
          Py (PyFloat 1); Py (PyStr "float64"); Py PyNone; Py (PyInt 4);
          Py (PyStr "HashPartitioner")]]
    /\ RDD.getNumPartitions wkb_rdd = 2.
Proof.
  destruct (num_partitions_passed_through
              Sample.dumps Sample.builtin_float Sample.jvm_invoke
              Sample.members Sample.active_spark_context
              Sample.points (PyInt 4326) (PyInt 12) (PyInt 1) Sample.FLOAT64
              PyNone (PyInt 4) Sample.HASH_PARTITIONER
              1%N "HashPartitioner" 1%float "float64"
              eq_refl eq_refl eq_refl eq_refl)
    as (wkb_rdd & Hcalls & Hn & _).
  exists wkb_rdd; split; [exact Hcalls|exact Hn].
Defined.


(** C2, refuted as stated: a collection holding an element shapely cannot
    encode ([None]) is submitted all the same; the call is dispatched and,
    with a JVM that does not look at the data, even answered. *)
Lemma unencodable_element_still_dispatched :
  In PyNone (List.concat [[Sample.p1; PyNone]])
  /\ Sample.dumps PyNone = inl AttributeError
  /\ remote_calls
       (trace (sample_rasterize (PyRDD Sample.broken) (PyInt 4326) (PyInt 12)
                 (PyInt 1) Sample.FLOAT64 PyNone PyNone
                 Sample.HASH_PARTITIONER))
     = [RemoteCall rasterizeGeometry
          [Java (JScalaRDD
                   (PipelinedRDD Sample.broken lambda_dumps false
                                 NoOpSerializer true));
           Py (PyStr "4326"); Py (PyInt 12); Py (PyFloat 1);
           Py (PyStr "float64"); Py PyNone; Py PyNone;
           Py (PyStr "HashPartitioner")]]
  /\ outcome (sample_rasterize (PyRDD Sample.broken) (PyInt 4326) (PyInt 12)
                (PyInt 1) Sample.FLOAT64 PyNone PyNone
                Sample.HASH_PARTITIONER)
     = inr (mkTiledRasterLayer SPATIAL (JLayer 7))
  /\ ~ fails_locally
         (sample_rasterize (PyRDD Sample.broken) (PyInt 4326) (PyInt 12)
            (PyInt 1) Sample.FLOAT64 PyNone PyNone Sample.HASH_PARTITIONER).
Proof.
  split; [simpl; auto|].
  split; [reflexivity|].
  split; [reflexivity|].
  split; [reflexivity|].
  intros [_ H]; discriminate H.
Qed.

(** The same element in a list stops the run before anything is sent. *)
Example unencodable_element_in_list :
  sample_rasterize (PyList [Sample.p1; PyNone]) (PyInt 4326) (PyInt 12)
    (PyInt 1) Sample.FLOAT64 PyNone PyNone Sample.HASH_PARTITIONER
  = mkRun [JvmResolve rasterizeGeometry] (inl AttributeError).
Proof. reflexivity. Qed.

(** C3, refuted as stated: with [None] for crs the call is dispatched, [None]
    in the crs position; a JVM that insists on a string rejects it then, and
    the error is the gateway's. *)
Lemma crs_none_reaches_the_jvm :
  isinstance_int PyNone = false
  /\ isinstance_str PyNone = false
  /\ remote_calls
       (trace (rasterize Sample.dumps Sample.builtin_float
                 Sample.strict_jvm_invoke Sample.members
                 Sample.active_spark_context
                 (PyList [Sample.p1]) PyNone (PyInt 12) (PyInt 1)
                 Sample.FLOAT64 PyNone PyNone Sample.HASH_PARTITIONER))
     = [RemoteCall rasterizeGeometry
          [Java (JSparkContext 1); Py (PyList [PyBytes wkb1]); Py PyNone;
           Py (PyInt 12); Py (PyFloat 1); Py (PyStr "float64"); Py PyNone;
           Py PyNone; Py (PyStr "HashPartitioner")]]
  /\ outcome (rasterize Sample.dumps Sample.builtin_float
                Sample.strict_jvm_invoke Sample.members
                Sample.active_spark_context
                (PyList [Sample.p1]) PyNone (PyInt 12) (PyInt 1)
                Sample.FLOAT64 PyNone PyNone Sample.HASH_PARTITIONER)
     = inl Py4JError
  /\ ~ fails_locally
         (rasterize Sample.dumps Sample.builtin_float
            Sample.strict_jvm_invoke Sample.members
            Sample.active_spark_context
            (PyList [Sample.p1]) PyNone (PyInt 12) (PyInt 1)
            Sample.FLOAT64 PyNone PyNone Sample.HASH_PARTITIONER)
  /\ outcome (sample_rasterize (PyList [Sample.p1]) PyNone (PyInt 12)
                (PyInt 1) Sample.FLOAT64 PyNone PyNone
                Sample.HASH_PARTITIONER)
     = inr (mkTiledRasterLayer SPATIAL (JLayer 7)).
Proof.
  split; [reflexivity|].
  split; [reflexivity|].
  split; [reflexivity|].
  split; [reflexivity|].
  split; [|reflexivity].
  intros [_ H]; discriminate H.
Qed.

(** C4, refuted as stated: asked for four partitions, [rasterize] submits
    the collection with the two partitions it came with. *)
Lemma collection_not_repartitioned_locally :
  remote_calls
    (trace (sample_rasterize (PyRDD Sample.points) (PyInt 4326) (PyInt 12)
              (PyInt 1) Sample.FLOAT64 PyNone (PyInt 4)
              Sample.HASH_PARTITIONER))
  = [RemoteCall rasterizeGeometry
       [Java (JScalaRDD
                (PipelinedRDD Sample.points lambda_dumps false NoOpSerializer
                              true));
        Py (PyStr "4326"); Py (PyInt 12); Py (PyFloat 1); Py (PyStr "float64");
        Py PyNone; Py (PyInt 4); Py (PyStr "HashPartitioner")]]
  /\ RDD.getNumPartitions
       (PipelinedRDD Sample.points lambda_dumps false NoOpSerializer true)
     = 2
  /\ compute Sample.dumps
       (PipelinedRDD Sample.points lambda_dumps false NoOpSerializer true)
     = inr [[PyBytes wkb1]; [PyBytes wkb2]]
  /\ 2 <> 4.
Proof.
  split; [reflexivity|].
  split; [reflexivity|].
  split; [reflexivity|discriminate].
Qed.

(** A single geometry, which is neither a sequence nor a collection. *)
Example rasterize_single_geometry :
  sample_rasterize Sample.p1 (PyInt 4326) (PyInt 12) (PyInt 1) Sample.FLOAT64
    PyNone PyNone Sample.HASH_PARTITIONER
  = mkRun [JvmResolve rasterizeGeometry] (inl AttributeError).
Proof. reflexivity. Qed.

(** An unknown cell type, found out after the collection's JVM counterpart
    was built but before the rasterizer is called. *)
Example rasterize_unknown_cell_type :
  sample_rasterize (PyRDD Sample.points) (PyInt 4326) (PyInt 12) (PyInt 1)
    (PyStr "float63") PyNone PyNone Sample.HASH_PARTITIONER
  = mkRun [JvmResolve rasterizeGeometry;
           JvmPythonRDD (PipelinedRDD Sample.points lambda_dumps false
                                      NoOpSerializer true);
           JvmRdd (PipelinedRDD Sample.points lambda_dumps false
                                NoOpSerializer true)]
          (inl ValueError).
Proof. reflexivity. Qed.

(** [True] is an [int] to [isinstance], and [str(True)] is not a number. *)
Example normalize_crs_bool : normalize_crs (PyBool true) = PyStr "True".
Proof. reflexivity. Qed.

Example str_int_negative : str_int (-32) = "-32".
Proof. reflexivity. Qed.

(** ** Further properties at work, and the ones that need no environment *)

Lemma first_unencodable_geometry_is_raised_witness :
  sample_rasterize (PyList [Sample.p1; PyNone; PyObj 300]) (PyInt 4326)
    (PyInt 12) (PyInt 1) Sample.FLOAT64 PyNone PyNone Sample.HASH_PARTITIONER
  = mkRun [JvmResolve rasterizeGeometry] (inl AttributeError).
Proof.
  apply (first_unencodable_geometry_is_raised
           Sample.dumps Sample.builtin_float Sample.jvm_invoke Sample.members
           Sample.active_spark_context
           (PyList [Sample.p1; PyNone; PyObj 300]) (PyInt 4326) (PyInt 12)
           (PyInt 1) Sample.FLOAT64 PyNone PyNone Sample.HASH_PARTITIONER
           1%N "HashPartitioner" [Sample.p1] PyNone [PyObj 300]
           AttributeError).
  - reflexivity.
  - reflexivity.
  - intros x [<-|[]]; eexists; reflexivity.
  - reflexivity.
  - reflexivity.
  - reflexivity.
Defined.

(** The element after the first failure would have failed differently. *)
Example later_element_not_looked_at :
  Sample.dumps (PyObj 300) = inl (OtherError "WKBWriteError").
Proof. reflexivity. Qed.

Lemma fill_value_conversion_failure_witness :
  Sample.builtin_float PyNone = inl TypeError
  /\ fails_locally
       (sample_rasterize (PyRDD Sample.points) (PyInt 4326) (PyInt 12) PyNone
          (PyStr "no such type") PyNone PyNone Sample.HASH_PARTITIONER).
Proof.
  split; [reflexivity|].
  exact (proj1 (fill_value_conversion_failure
                  Sample.dumps Sample.builtin_float Sample.jvm_invoke
                  Sample.members Sample.active_spark_context
                  (PyRDD Sample.points) (PyInt 4326) (PyInt 12) PyNone
                  (PyStr "no such type") PyNone PyNone Sample.HASH_PARTITIONER
                  TypeError eq_refl)).
Defined.

Lemma rasterize_features_needs_a_collection_witness :
  sample_rasterize_features (PyList [PyObj 1000; PyObj 1001]) (PyInt 4326)
    (PyInt 12) Sample.FLOAT64 PyNone PyNone Sample.INT8
    Sample.HASH_PARTITIONER
  = mkRun [JvmResolve rasterizeFeaturesWithZIndex] (inl AttributeError).
Proof.
  refine (proj2 (rasterize_features_needs_a_collection
                   Sample.jvm_invoke Sample.members
                   Sample.active_spark_context
                   (PyList [PyObj 1000; PyObj 1001]) (PyInt 4326) (PyInt 12)
                   Sample.FLOAT64 PyNone PyNone Sample.INT8
                   Sample.HASH_PARTITIONER _)
                1%N "HashPartitioner" eq_refl eq_refl).
  intros r E; discriminate E.
Defined.


(** The same values in an object with an eager [map]: there the encoder
    does run, and what it raises is raised by [rasterize]. *)
Example eager_map_encodes_locally :
  sample_rasterize (PySeries [Sample.p1; PyNone]) (PyInt 4326) (PyInt 12)
    (PyInt 1) Sample.FLOAT64 PyNone PyNone Sample.HASH_PARTITIONER
  = mkRun [JvmResolve rasterizeGeometry] (inl AttributeError)
  /\ rasterize (fun _ => inl TypeError) Sample.builtin_float
       Sample.jvm_invoke Sample.members Sample.active_spark_context
       (PySeries [Sample.p1; PyNone]) (PyInt 4326) (PyInt 12) (PyInt 1)
       Sample.FLOAT64 PyNone PyNone Sample.HASH_PARTITIONER
     = mkRun [JvmResolve rasterizeGeometry] (inl TypeError).
Proof. split; reflexivity. Qed.

(** X14.  The selector of the cost-distance tests picks the tile at column 0,
    row 1 and nothing else: it answers [True] exactly on the keys that bind
    ['col'] to 0 and ['row'] to 1, so two tiles it both accepts sit at the
    same grid position.  A key without ['col'] is a [KeyError]; a key whose
    column is not 0 is rejected without ['row'] being read, present or not;
    and at column 0 a key without ['row'] is a [KeyError]. *)
Theorem zero_one_selects_column_0_row_1 (T : Type) :
  (forall kv : CostDistanceTest.Key * T,
      CostDistanceTest.zero_one kv = inr true
      <-> CostDistanceTest.getitem (fst kv) "col" = inr 0%Z
          /\ CostDistanceTest.getitem (fst kv) "row" = inr 1%Z)
  /\ (forall kv1 kv2 : CostDistanceTest.Key * T,
         CostDistanceTest.zero_one kv1 = inr true ->
         CostDistanceTest.zero_one kv2 = inr true ->
         CostDistanceTest.getitem (fst kv1) "col"
         = CostDistanceTest.getitem (fst kv2) "col"
         /\ CostDistanceTest.getitem (fst kv1) "row"
            = CostDistanceTest.getitem (fst kv2) "row")
  /\ (forall (kv : CostDistanceTest.Key * T) e,
         CostDistanceTest.getitem (fst kv) "col" = inl e ->
         CostDistanceTest.zero_one kv = inl e)
  /\ (forall (kv : CostDistanceTest.Key * T) col,
         CostDistanceTest.getitem (fst kv) "col" = inr col ->
         col <> 0%Z ->
         CostDistanceTest.zero_one kv = inr false)
  /\ (forall (kv : CostDistanceTest.Key * T) e,
         CostDistanceTest.getitem (fst kv) "col" = inr 0%Z ->
         CostDistanceTest.getitem (fst kv) "row" = inl e ->
         CostDistanceTest.zero_one kv = inl e).
Proof.
  assert (Hiff : forall kv : CostDistanceTest.Key * T,
             CostDistanceTest.zero_one kv = inr true
             <-> CostDistanceTest.getitem (fst kv) "col" = inr 0%Z
                 /\ CostDistanceTest.getitem (fst kv) "row" = inr 1%Z).
  { intros kv; unfold CostDistanceTest.zero_one; cbn zeta.
    destruct (CostDistanceTest.getitem (fst kv) "col") as [e|col]; simpl.
    - split; [discriminate|intros [H _]; discriminate H].
    - destruct (Z.eqb_spec col 0) as [->|Hne].
      + destruct (CostDistanceTest.getitem (fst kv) "row") as [e|row]; simpl.
        * split; [discriminate|intros [_ H]; discriminate H].
        * destruct (Z.eqb_spec row 1) as [->|Hne]; split; try tauto.
          -- discriminate.
          -- intros [_ H]; congruence.
      + split; [discriminate|intros [H _]; congruence]. }
  split; [exact Hiff|].
  split; [|split; [|split]].
  - intros kv1 kv2 H1 H2.
    apply Hiff in H1 as [-> ->], H2 as [-> ->]; split; reflexivity.
  - intros kv e H; unfold CostDistanceTest.zero_one; cbn zeta.
    rewrite H; reflexivity.
  - intros kv col H Hne; unfold CostDistanceTest.zero_one; cbn zeta.
    rewrite H; simpl.
    destruct (Z.eqb_spec col 0); [contradiction|reflexivity].
  - intros kv e Hc Hr; unfold CostDistanceTest.zero_one; cbn zeta.
    rewrite Hc; simpl; rewrite Hr; reflexivity.
Qed.

(** On the layer of the tests it is the second tile that is selected. *)
Example zero_one_on_the_test_layer :
  List.map (fun k => CostDistanceTest.zero_one (k, tt))
           CostDistanceTest.layer_keys
  = [inr false; inr true; inr false; inr false].
Proof. reflexivity. Qed.

(** A key that lacks ['row'] goes unnoticed away from column 0. *)
Example zero_one_short_circuit :
  CostDistanceTest.zero_one ([("col", 1%Z)], tt) = inr false
  /\ CostDistanceTest.zero_one ([("col", 0%Z)], tt)
     = inl (OtherError "KeyError").
Proof. split; reflexivity. Qed.

(** ** The revised statements at work *)


Lemma per_element_step_preserves_order_and_partitions_witness :
  exists wkb_rdd reserialized_rdd,
    RDD.getNumPartitions wkb_rdd = 2
    /\ RDD.getNumPartitions reserialized_rdd = 2
    /\ compute Sample.dumps reserialized_rdd
       = inr [[Sample.p1]; [Sample.p2]]
    /\ (forall parts',
           compute Sample.dumps wkb_rdd = inr parts' ->
           List.length parts' = 2 /\ List.length (List.concat parts') = 2)
    /\ exists parts', compute Sample.dumps wkb_rdd = inr parts'.
Proof.
  destruct (per_element_step_preserves_order_and_partitions
              Sample.dumps Sample.builtin_float Sample.jvm_invoke
              Sample.members Sample.active_spark_context
              Sample.points (PyInt 4326) (PyInt 12) (PyInt 1) Sample.FLOAT64
              PyNone PyNone Sample.INT8 Sample.HASH_PARTITIONER
              1%N "HashPartitioner" 1%float "float64" "int8"
              eq_refl eq_refl eq_refl eq_refl eq_refl)
    as (wkb_rdd & reserialized_rdd & rest & rest' & _ & _ & Hn & Hn' & Hc
        & Hparts).
  destruct (Hparts [[Sample.p1]; [Sample.p2]] eq_refl) as [Hshape Htotal].
  exists wkb_rdd, reserialized_rdd.
  split; [exact Hn|].
  split; [exact Hn'|].
  split; [rewrite Hc; reflexivity|].
  split.
  - intros parts' E; destruct (Hshape parts' E) as (H1 & H2 & _).
    split; assumption.
  - apply Htotal.
    intros g [<-|[<-|[]]]; eexists; reflexivity.
Defined.


(** The same values in a collection are submitted, and in a list the
    failure is raised before anything is sent. *)
Example rasterize_paths_side_by_side :
  remote_calls
    (trace (sample_rasterize
              (PyRDD (ParallelRDD [[Sample.p1; PyObj 300; PyNone]]
                                  PickleSerializer))
              (PyInt 4326) (PyInt 12) (PyInt 1) Sample.FLOAT64 PyNone PyNone
              Sample.HASH_PARTITIONER))
  = [RemoteCall rasterizeGeometry
       [Java (JScalaRDD
                (PipelinedRDD
                   (ParallelRDD [[Sample.p1; PyObj 300; PyNone]]
                                PickleSerializer)
                   lambda_dumps false NoOpSerializer true));
        Py (PyStr "4326"); Py (PyInt 12); Py (PyFloat 1); Py (PyStr "float64");
        Py PyNone; Py PyNone; Py (PyStr "HashPartitioner")]]
  /\ sample_rasterize (PyTuple [Sample.p1; PyObj 300; PyNone]) (PyInt 4326)
       (PyInt 12) (PyInt 1) Sample.FLOAT64 PyNone PyNone
       Sample.HASH_PARTITIONER
     = mkRun [JvmResolve rasterizeGeometry]
             (inl (OtherError "WKBWriteError")).
Proof. split; reflexivity. Qed.

Lemma crs_int_coerced_to_decimal_string_witness :
  remote_calls
    (trace (sample_rasterize (PyRDD Sample.points) (PyInt 4326) (PyInt 12)
              (PyInt 1) Sample.FLOAT64 PyNone PyNone
              Sample.HASH_PARTITIONER))
  = [RemoteCall rasterizeGeometry
       [Java (JScalaRDD
                (PipelinedRDD Sample.points lambda_dumps false NoOpSerializer
                              true));
        Py (normalize_crs (PyStr "4326")); Py (PyInt 12); Py (PyFloat 1);
        Py (PyStr "float64"); Py PyNone; Py PyNone;
        Py (PyStr "HashPartitioner")]].
Proof.
  destruct (crs_int_coerced_to_decimal_string
              Sample.dumps Sample.builtin_float Sample.jvm_invoke
              Sample.members Sample.active_spark_context)
    as (_ & _ & _ & _ & _ & _ & _ & _ & _ & Hrdd & _).
  exact (Hrdd Sample.points (PyInt 4326) (PyInt 12) (PyInt 1) Sample.FLOAT64
           PyNone PyNone Sample.HASH_PARTITIONER
           1%N "HashPartitioner" 1%float "float64"
           eq_refl eq_refl eq_refl eq_refl).
Defined.

Lemma enum_spellings_resolve_or_fail_locally_witness :
  Enum_value Sample.members CellType (PyStr "float63") = inl ValueError
  /\ fails_locally
       (sample_rasterize (PyRDD Sample.points) (PyInt 4326) (PyInt 12)
          (PyInt 1) (PyStr "float63") PyNone PyNone Sample.HASH_PARTITIONER)
  /\ exists cv pv,
       Enum_value Sample.members CellType (PyStr "float64") = inr cv
       /\ Enum_value Sample.members Partitioner Sample.HASH_PARTITIONER
          = inr pv
       /\ remote_calls
            (trace (sample_rasterize (PyRDD Sample.points) (PyInt 4326)
                      (PyInt 12) (PyInt 1) (PyStr "float64") PyNone PyNone
                      Sample.HASH_PARTITIONER))
          = [RemoteCall rasterizeGeometry
               [Java (JScalaRDD
                        (PipelinedRDD Sample.points lambda_dumps false
                                      NoOpSerializer true));
                Py (normalize_crs (PyInt 4326)); Py (PyInt 12);
                Py (PyFloat 1); Py (PyStr cv); Py PyNone; Py PyNone;
                Py (PyStr pv)]].
Proof.
  destruct (enum_spellings_resolve_or_fail_locally
              Sample.dumps Sample.builtin_float Sample.jvm_invoke
              Sample.members Sample.active_spark_context)
    as (_ & _ & _ & _ & Hout & _ & _ & _ & _ & Hfail & _ & Hrdd & _).
  assert (Hno : forall name, ~ In (name, "float63") (Sample.members CellType)).
  { intros name [H|[H|[]]]; discriminate H. }
  assert (Hnot : ~ recognised Sample.members CellType (PyStr "float63")).
  { intros [(name & value & E) | (name & value & E & Hin)];
      [discriminate E|].
    injection E as <-; exact (Hno name Hin). }
  split; [exact (Hout CellType "float63" Hno)|].
  split; [apply Hfail; left; exact Hnot|].
  apply (Hrdd Sample.points (PyInt 4326) (PyInt 12) (PyInt 1)
           (PyStr "float64") PyNone PyNone Sample.HASH_PARTITIONER
           1%N 1%float).
  - right; exists "FLOAT64", "float64"; split; [reflexivity|].
    simpl; auto.
  - left; exists "HASH_PARTITIONER", "HashPartitioner"; reflexivity.
  - reflexivity.
  - reflexivity.
Defined.
